(** * FileHandle and FileHandleDeviceWakeHelper (platform/FileHandle.h)

    A shallow embedding of the file-handle interface of mbed and of the
    helper that builds blocking reads and writes, poll_with_wake and sigio
    on top of a natively non-blocking device.

    The header gives the bodies of the FileHandle defaults, of
    [FileHandleDeviceWakeHelper::set_blocking], [is_blocking] and of the
    constructor.  The out-of-line members of the helper ([read], [write],
    [poll_with_wake], [sigio], [wake]) are declared in the header and
    described by the specification; they are modelled from it, each under a
    comment that says so. *)

From Stdlib Require Import ZArith List Bool Lia.
From Stdlib Require Import Init.Byte.
From Paco Require Import paco.
From ITree Require Import ITree ITreeFacts Events.State Events.StateFacts.
From ITree Require Import Basics.HeterogeneousRelations.
Import ListNotations.
Import ITreeNotations.
Local Open Scope Z_scope.
Local Open Scope itree_scope.

(* ===================================================================== *)
(** * C types and constants                                               *)
(* ===================================================================== *)

(** [short]: a 16-bit two's complement integer, kept as a [Z] in
    [-32768, 32768).  [to_short] is the conversion of an [int] to [short]
    (wrap-around). *)
Definition is_short (z : Z) : Prop := -32768 <= z < 32768.

Definition to_short (z : Z) : Z := (z + 32768) mod 65536 - 32768.

(** Conversion of an integer to [bool]: any non-zero value is [true]. *)
Definition to_bool (z : Z) : bool := negb (z =? 0).

(** [<cstdio>]: origins of [seek]. *)
Definition SEEK_SET : Z := 0.
Definition SEEK_CUR : Z := 1.
Definition SEEK_END : Z := 2.

(** The constants of [platform/mbed_poll.h] and of [<errno.h>], which are
    not part of the sources at hand: they are parameters of the
    development. *)
Class Platform : Type := {
  POLLIN : Z;
  POLLOUT : Z;
  POLLERR : Z;
  POLLHUP : Z;
  POLLNVAL : Z;
  EAGAIN : Z
}.

(** What the development assumes of the poll flags: each is a non-empty
    mask that fits a non-negative [short], and no two of them overlap. *)
Record flags_ok (P : Platform) : Prop := {
  in_range : 0 < POLLIN < 32768;
  out_range : 0 < POLLOUT < 32768;
  err_range : 0 < POLLERR < 32768;
  hup_range : 0 < POLLHUP < 32768;
  nval_range : 0 < POLLNVAL < 32768;
  in_out : Z.land POLLIN POLLOUT = 0;
  in_err : Z.land POLLIN POLLERR = 0;
  in_hup : Z.land POLLIN POLLHUP = 0;
  in_nval : Z.land POLLIN POLLNVAL = 0;
  out_err : Z.land POLLOUT POLLERR = 0;
  out_hup : Z.land POLLOUT POLLHUP = 0;
  out_nval : Z.land POLLOUT POLLNVAL = 0
}.

(** The values mbed gives them (newlib's [EAGAIN]). *)
Definition mbed_platform : Platform := {|
  POLLIN := 0x0001;
  POLLOUT := 0x0010;
  POLLERR := 0x1000;
  POLLHUP := 0x2000;
  POLLNVAL := 0x4000;
  EAGAIN := 11
|}.

(** Modelled from the spec: [Callback<void()>], whose header [Callback.h]
    is not part of the sources: a handle has at most one registered
    callback (spec 3).  [None] is the empty callback a default construction
    gives, [Some f] a callback bound to the function [f]. *)
Definition Callback : Type := option nat.

(* ===================================================================== *)
(** * class FileHandle                                                    *)
(* ===================================================================== *)

(** The virtual members of a file handle whose state has type [St]: a call
    [this->m(...)] made inside a member body is a call through this table,
    so that it reaches the override of the most derived class.  Members
    take the state of the object and give their result and the new state;
    a [const] member gives a result only.  A buffer is the list of its
    bytes. *)
Record FileHandle (St : Type) : Type := {
  vread : N -> St -> Z * list byte * St;
  vwrite : list byte -> St -> Z * St;
  vseek : Z -> Z -> St -> Z * St;
  vclose : St -> Z * St;
  vsync : St -> Z * St;
  visatty : St -> Z * St;
  vtell : St -> Z * St;
  vrewind : St -> St;
  vsize : St -> Z * St;
  vlseek : Z -> Z -> St -> Z * St;
  vfsync : St -> Z * St;
  vflen : St -> Z * St;
  vset_blocking : bool -> St -> Z * St;
  vpoll : Z -> St -> Z;
  vpoll_with_wake : Z -> bool -> St -> Z * St;
  vsigio : Callback -> St -> St
}.

Arguments vread {St}.
Arguments vwrite {St}.
Arguments vseek {St}.
Arguments vclose {St}.
Arguments vsync {St}.
Arguments visatty {St}.
Arguments vtell {St}.
Arguments vrewind {St}.
Arguments vsize {St}.
Arguments vlseek {St}.
Arguments vfsync {St}.
Arguments vflen {St}.
Arguments vset_blocking {St}.
Arguments vpoll {St}.
Arguments vpoll_with_wake {St}.
Arguments vsigio {St}.

(** The bodies the class FileHandle itself gives, in the order of the
    header.  [this] is the table of the object the member is called on. *)
Module Base.
Section Bodies.
Context {P : Platform} {St : Type}.
Variable this : FileHandle St.

Definition sync (s : St) : Z * St := (0, s).

Definition isatty (s : St) : Z * St := (0, s).

Definition tell (s : St) : Z * St := vseek this 0 SEEK_CUR s.

Definition rewind (s : St) : St := snd (vseek this 0 SEEK_SET s).

Definition lseek (offset whence : Z) (s : St) : Z * St :=
  vseek this offset whence s.

Definition fsync (s : St) : Z * St := vsync this s.

Definition flen (s : St) : Z * St := vsize this s.

Definition set_blocking (blocking : bool) (s : St) : Z * St := (-1, s).

Definition poll (events : Z) (s : St) : Z :=
  to_short (Z.lor POLLIN POLLOUT).

Definition poll_with_wake (events : Z) (wake : bool) (s : St) : Z * St :=
  (to_short POLLNVAL, s).

Definition writable (s : St) : bool :=
  to_bool (Z.land (vpoll this POLLOUT s) POLLOUT).

Definition readable (s : St) : bool :=
  to_bool (Z.land (vpoll this POLLIN s) POLLIN).

Definition sigio (func : Callback) (s : St) : St := s.
End Bodies.
End Base.

(** A class that overrides the pure virtual members and [size] only and
    inherits every other member from FileHandle.  The inherited bodies call
    no virtual member but [seek], [sync] and [size], which [core] holds
    already: they are bound to it. *)
Definition inherit_defaults {P : Platform} {St : Type}
  (read : N -> St -> Z * list byte * St)
  (write : list byte -> St -> Z * St)
  (seek : Z -> Z -> St -> Z * St)
  (close : St -> Z * St)
  (size : St -> Z * St) : FileHandle St :=
  let core := {|
    vread := read; vwrite := write; vseek := seek; vclose := close;
    vsync := Base.sync; visatty := Base.isatty;
    vtell := fun s => (0, s); vrewind := fun s => s; vsize := size;
    vlseek := fun _ _ s => (0, s); vfsync := fun s => (0, s);
    vflen := fun s => (0, s); vset_blocking := Base.set_blocking;
    vpoll := Base.poll; vpoll_with_wake := Base.poll_with_wake;
    vsigio := Base.sigio |} in
  {|
    vread := read; vwrite := write; vseek := seek; vclose := close;
    vsync := Base.sync; visatty := Base.isatty;
    vtell := Base.tell core; vrewind := Base.rewind core; vsize := size;
    vlseek := Base.lseek core; vfsync := Base.fsync core;
    vflen := Base.flen core; vset_blocking := Base.set_blocking;
    vpoll := Base.poll; vpoll_with_wake := Base.poll_with_wake;
    vsigio := Base.sigio |}.

(** An example: a file of [len] bytes whose state is the file position;
    reads reach the end of the file at once and writes are discarded. *)
Definition fixed_seek (len offset whence pos : Z) : Z * Z :=
  let target :=
    if whence =? SEEK_SET then offset
    else if whence =? SEEK_CUR then pos + offset
    else len + offset in
  if target <? 0 then (-1, pos) else (target, target).

Definition fixed_file {P : Platform} (len : Z) : FileHandle Z :=
  inherit_defaults
    (fun _ pos => (0, [], pos))
    (fun data pos => (Z.of_nat (length data), pos))
    (fixed_seek len)
    (fun pos => (0, pos))
    (fun pos => (len, pos)).

(** The example with mbed's constants and a length of 16 bytes. *)
Definition mbed_file : FileHandle Z := fixed_file (P := mbed_platform) 16.

(* ===================================================================== *)
(** * class FileHandleDeviceWakeHelper                                    *)
(* ===================================================================== *)

(** The two directions of a device and the threads that wait on them. *)
Inductive direction : Type := Rx | Tx.

Definition thread : Type := nat.

(** Modelled from the spec: ConditionVariableCS, whose header
    [platform/ConditionVariableCS.h] is not part of the sources.  A wait
    primitive holds the threads suspended on it: a thread that waits joins
    them, and a signal releases all of them to retry (spec, 3 and 4.2,
    wake, step 1). *)
Record ConditionVariableCS : Type := { waiters : list thread }.

(** Modelled from the spec: a wait primitive as it is constructed, with
    nobody suspended on it. *)
Definition cv_empty : ConditionVariableCS := {| waiters := [] |}.

(** Modelled from the spec: ConditionVariableCS::wait, as far as the wait
    primitive goes: the calling thread joins the suspended ones. *)
Definition cv_wait (t : thread) (cv : ConditionVariableCS)
  : ConditionVariableCS :=
  {| waiters := waiters cv ++ [t] |}.

(** Modelled from the spec: ConditionVariableCS::notify_all: the suspended
    threads are released, all of them. *)
Definition notify_all (cv : ConditionVariableCS)
  : list thread * ConditionVariableCS :=
  (waiters cv, cv_empty).

(** The data members of the helper. *)
Record WakeHelper : Type := {
  _blocking : bool;
  _poll_wake_events : Z;
  _cv_rx : ConditionVariableCS;
  _cv_tx : ConditionVariableCS;
  _sigio_cb : Callback
}.

(** The members a device class supplies ([D] is its state): they are pure
    virtual in the helper. *)
Record Device (D : Type) : Type := {
  is_stream : D -> bool;
  read_nonblocking : N -> D -> Z * list byte * D;
  write_nonblocking : list byte -> D -> Z * D;
  poll : Z -> D -> Z
}.

Arguments is_stream {D}.
Arguments read_nonblocking {D}.
Arguments write_nonblocking {D}.
Arguments poll {D}.

(** What a call of [read] or [write] does to the outside: the calls of the
    device's non-blocking members and the suspensions of the calling
    thread on a wait primitive. *)
Variant helperE : Type -> Type :=
| IsStream : helperE bool
| ReadNonblocking (size : N) : helperE (Z * list byte)
| WriteNonblocking (data : list byte) : helperE Z
| Wait (dir : direction) : helperE unit.

(** What the interrupt side of the helper does to the outside: it signals
    a wait primitive, calls [FileHandle::wake_poll] (declared in the
    header, for the calls of poll that asked for a wake), or invokes the
    callback registered with [sigio]. *)
Inductive effect : Type :=
| Signal (dir : direction) (released : list thread)
| WakePoll (events : Z)
| Invoke (f : nat).

Module Helper.
Section Members.
Context {P : Platform}.

(** [FileHandleDeviceWakeHelper() : _blocking(true), _poll_wake_events(0)]:
    the wait primitives and the callback are default-constructed. *)
Definition FileHandleDeviceWakeHelper : WakeHelper := {|
  _blocking := true;
  _poll_wake_events := 0;
  _cv_rx := cv_empty;
  _cv_tx := cv_empty;
  _sigio_cb := None
|}.

Definition is_blocking (this : WakeHelper) : bool := _blocking this.

Definition set_blocking (blocking : bool) (this : WakeHelper)
  : Z * WakeHelper :=
  (0, {| _blocking := blocking;
         _poll_wake_events := _poll_wake_events this;
         _cv_rx := _cv_rx this;
         _cv_tx := _cv_tx this;
         _sigio_cb := _sigio_cb this |}).

(** Modelled from the spec: FileHandleDeviceWakeHelper::read, whose body is
    not part of the sources (spec 4.2, read and edge cases; 7).  A size of
    zero succeeds at once.  Otherwise read_nonblocking is attempted: on the
    not-ready sentinel a blocking call suspends on the receive wait
    primitive and retries from the top; any other result, and the sentinel
    in non-blocking mode, is returned as it is.  The mode is the one the
    handle has when the call starts. *)
Definition read_loop (blocking : bool) (size : N)
  : itree helperE (Z * list byte) :=
  ITree.iter (fun _ : unit =>
    r <- ITree.trigger (ReadNonblocking size) ;;
    if (fst r =? - EAGAIN) && blocking
    then ITree.trigger (Wait Rx) ;; Ret (inl tt)
    else Ret (inr r)) tt.

(** Modelled from the spec: FileHandleDeviceWakeHelper::read (spec 4.2,
    edge cases): a requested size of zero is an immediate success, and any
    other size enters the loop above in the mode of the handle. *)
Definition read (this : WakeHelper) (size : N)
  : itree helperE (Z * list byte) :=
  if (size =? 0)%N then Ret (0, []) else read_loop (is_blocking this) size.

(** Modelled from the spec: FileHandleDeviceWakeHelper::write for a
    datagram device (spec 4.2, write, datagram semantics; 4.1, write; 5).
    The attempt is made with the whole data.  In blocking mode an attempt
    that is not ready is followed by a suspension on the transmit wait
    primitive, and the attempt is made again after the wake, as often as
    it is not ready: a blocking write does not return before the data is
    accepted or a hard error occurs, and a wake may be spurious (the header
    has a blocking write block until the data is written, with only one
    successful call of write_nonblocking for a datagram).  The result of
    the last attempt is returned as it is. *)
Definition write_datagram (blocking : bool) (data : list byte)
  : itree helperE Z :=
  ITree.iter (fun _ : unit =>
    n <- ITree.trigger (WriteNonblocking data) ;;
    if (n =? - EAGAIN) && blocking
    then ITree.trigger (Wait Tx) ;; Ret (inl tt)
    else Ret (inr n)) tt.

(** Modelled from the spec: FileHandleDeviceWakeHelper::write for a stream
    device (spec 4.2, write, stream semantics; 7).  [written] bytes are
    accepted so far and [rest] is still to write.  A hard error is returned
    as it is.  On the not-ready sentinel a non-blocking call returns the
    partial count if there is one and the sentinel otherwise; a blocking
    call suspends on the transmit wait primitive and retries, since a
    blocking write does not return before all the bytes are accepted or a
    hard error occurs (spec 4.1, write; spec 8, blocking stream write; the
    header says the same of a stream). *)
Definition write_stream_step (blocking : bool) (st : Z * list byte)
  : itree helperE (Z * list byte + Z) :=
  let '(written, rest) := st in
  match rest with
  | [] => Ret (inr written)
  | _ :: _ =>
    n <- ITree.trigger (WriteNonblocking rest) ;;
    if n =? - EAGAIN then
      if blocking then ITree.trigger (Wait Tx) ;; Ret (inl (written, rest))
      else Ret (inr (if 0 <? written then written else n))
    else if n <? 0 then Ret (inr n)
    else Ret (inl (written + n, skipn (Z.to_nat n) rest))
  end.

(** Modelled from the spec: the stream write repeats the step above until
    it gives a result (spec 4.2, write, stream semantics). *)
Definition write_stream (blocking : bool) (st : Z * list byte)
  : itree helperE Z :=
  ITree.iter (write_stream_step blocking) st.

(** Modelled from the spec: FileHandleDeviceWakeHelper::write (spec 4.2,
    write and edge cases).  A size of zero succeeds at once; otherwise
    [is_stream] selects the semantics. *)
Definition write (this : WakeHelper) (data : list byte) : itree helperE Z :=
  match data with
  | [] => Ret 0
  | _ :: _ =>
    stream <- ITree.trigger IsStream ;;
    if stream : bool then write_stream (is_blocking this) (0, data)
    else write_datagram (is_blocking this) data
  end.

(** Modelled from the spec: FileHandleDeviceWakeHelper::poll_with_wake
    (spec 4.2, poll_with_wake).  The current mask is the device's [poll];
    if [wake] is set and the mask has none of the requested bits, these
    are merged into the single-shot registration. *)
Definition poll_with_wake {D : Type} (dev : Device D) (d : D)
  (events : Z) (wake : bool) (this : WakeHelper) : Z * WakeHelper :=
  let mask := poll dev events d in
  if wake && negb (to_bool (Z.land mask events))
  then (mask, {| _blocking := _blocking this;
                 _poll_wake_events :=
                   to_short (Z.lor (_poll_wake_events this) events);
                 _cv_rx := _cv_rx this;
                 _cv_tx := _cv_tx this;
                 _sigio_cb := _sigio_cb this |})
  else (mask, this).

(** Modelled from the spec: FileHandleDeviceWakeHelper::sigio (spec 4.2,
    sigio): the callback is stored. *)
Definition sigio (func : Callback) (this : WakeHelper) : WakeHelper :=
  {| _blocking := _blocking this;
     _poll_wake_events := _poll_wake_events this;
     _cv_rx := _cv_rx this;
     _cv_tx := _cv_tx this;
     _sigio_cb := func |}.

(** Modelled from the spec: the receive-relevant bits of wake (spec 4.2,
    wake, step 1), as the header's comment on [wake] gives them: blocking
    reads wake on POLLIN or POLLERR.  (The spec adds the hangup bit; the
    header names it for blocking writes only, and the model follows the
    header.) *)
Definition rx_events : Z := Z.lor POLLIN POLLERR.

(** Modelled from the spec: the transmit-relevant bits of wake (spec 4.2,
    wake, step 2): writable, hangup, error, as in the header's comment. *)
Definition tx_events : Z := Z.lor (Z.lor POLLOUT POLLHUP) POLLERR.

(** Modelled from the spec: FileHandleDeviceWakeHelper::wake, step 1: the
    receive wait primitive is signalled on a receive-relevant bit. *)
Definition wake_rx (events : Z) (this : WakeHelper)
  : WakeHelper * list effect :=
  if to_bool (Z.land events rx_events) then
    let '(released, cv) := notify_all (_cv_rx this) in
    ({| _blocking := _blocking this;
        _poll_wake_events := _poll_wake_events this;
        _cv_rx := cv;
        _cv_tx := _cv_tx this;
        _sigio_cb := _sigio_cb this |}, [Signal Rx released])
  else (this, []).

(** Modelled from the spec: FileHandleDeviceWakeHelper::wake, step 2: the
    transmit wait primitive is signalled on a transmit-relevant bit. *)
Definition wake_tx (events : Z) (this : WakeHelper)
  : WakeHelper * list effect :=
  if to_bool (Z.land events tx_events) then
    let '(released, cv) := notify_all (_cv_tx this) in
    ({| _blocking := _blocking this;
        _poll_wake_events := _poll_wake_events this;
        _cv_rx := _cv_rx this;
        _cv_tx := cv;
        _sigio_cb := _sigio_cb this |}, [Signal Tx released])
  else (this, []).

(** Modelled from the spec: FileHandleDeviceWakeHelper::wake, step 3: if
    the events meet the armed single-shot registration, the calls of poll
    that armed it are woken, once, and the satisfied bits leave the
    registration.  What is called is [FileHandle::wake_poll], which the
    header declares for this use (poll_with_wake: the next time any of the
    specified events occur, wake_poll must be called). *)
Definition wake_registration (events : Z) (this : WakeHelper)
  : WakeHelper * list effect :=
  if to_bool (Z.land events (_poll_wake_events this)) then
    ({| _blocking := _blocking this;
        _poll_wake_events :=
          to_short (Z.land (_poll_wake_events this) (Z.lnot events));
        _cv_rx := _cv_rx this;
        _cv_tx := _cv_tx this;
        _sigio_cb := _sigio_cb this |},
     [WakePoll events])
  else (this, []).

(** Modelled from the spec: FileHandleDeviceWakeHelper::wake and the
    state-change callback (spec 3): the callback registered with [sigio],
    if there is one, is invoked on any transition reported through wake,
    independently of the single-shot registration. *)
Definition wake_sigio (this : WakeHelper) : list effect :=
  match _sigio_cb this with
  | Some f => [Invoke f]
  | None => []
  end.

(** Modelled from the spec: FileHandleDeviceWakeHelper::wake, whose body is
    not part of the sources (spec 4.2, wake, steps 1 to 3, and spec 3 for
    the callback; the header: wake serves blocking reads and writes,
    poll_with_wake and sigio callbacks). *)
Definition wake (events : Z) (this : WakeHelper)
  : WakeHelper * list effect :=
  let '(this1, fx1) := wake_rx events this in
  let '(this2, fx2) := wake_tx events this1 in
  let '(this3, fx3) := wake_registration events this2 in
  (this3, fx1 ++ fx2 ++ fx3 ++ wake_sigio this3).

(** A run of calls of [wake], one for each of the events reported, in
    order. *)
Fixpoint wakes (reported : list Z) (this : WakeHelper)
  : WakeHelper * list effect :=
  match reported with
  | [] => (this, [])
  | events :: later =>
    let '(this1, fx1) := wake events this in
    let '(this2, fx2) := wakes later this1 in
    (this2, fx1 ++ fx2)
  end.

End Members.
End Helper.

(* ===================================================================== *)
(** * The helper and the interrupts of its device                         *)
(* ===================================================================== *)

(** An interrupt of the device: what it does to the device, and the events
    its handler reports to [wake] (spec 6: the device calls wake whenever
    a readiness bit becomes true). *)
Record interrupt (D : Type) : Type := {
  occurs : D -> D;
  reports : Z
}.

Arguments occurs {D}.
Arguments reports {D}.

(** What happens while a thread is suspended: an interrupt of the device,
    or a call of [set_blocking] by another thread. *)
Inductive happening (D : Type) : Type :=
| Interrupt (i : interrupt D)
| SetsBlocking (blocking : bool).

Arguments Interrupt {D}.
Arguments SetsBlocking {D}.

(** A device of state [D] behind its helper, with what is to happen. *)
Record system (D : Type) : Type := {
  helper : WakeHelper;
  device : D;
  pending : list (happening D)
}.

Arguments helper {D}.
Arguments device {D}.
Arguments pending {D}.

Definition relevant {P : Platform} (dir : direction) : Z :=
  match dir with
  | Rx => Helper.rx_events
  | Tx => Helper.tx_events
  end.

Definition suspended_on (dir : direction) (this : WakeHelper) : list thread :=
  match dir with
  | Rx => waiters (_cv_rx this)
  | Tx => waiters (_cv_tx this)
  end.

(** Modelled from the spec: the thread [t] waits on the wait primitive of
    [dir] (spec 4.2, read and write: suspend on the wait primitive of the
    direction). *)
Definition suspend (dir : direction) (t : thread) (this : WakeHelper)
  : WakeHelper :=
  match dir with
  | Rx => {| _blocking := _blocking this;
             _poll_wake_events := _poll_wake_events this;
             _cv_rx := cv_wait t (_cv_rx this);
             _cv_tx := _cv_tx this;
             _sigio_cb := _sigio_cb this |}
  | Tx => {| _blocking := _blocking this;
             _poll_wake_events := _poll_wake_events this;
             _cv_rx := _cv_rx this;
             _cv_tx := cv_wait t (_cv_tx this);
             _sigio_cb := _sigio_cb this |}
  end.

(** One happening: an interrupt changes the device and its handler calls
    [wake] with the events; a call of [set_blocking] is the body of the
    header, which signals nothing. *)
Definition happen {P : Platform} {D : Type} (h : happening D)
  (d : D) (this : WakeHelper) : D * WakeHelper :=
  match h with
  | Interrupt i => (occurs i d, fst (Helper.wake (reports i) this))
  | SetsBlocking b => (d, snd (Helper.set_blocking b this))
  end.

(** Whether a happening releases the threads suspended on a direction:
    only an interrupt whose events concern the direction does. *)
Definition releases {P : Platform} {D : Type} (dir : direction)
  (h : happening D) : bool :=
  match h with
  | Interrupt i => to_bool (Z.land (reports i) (relevant dir))
  | SetsBlocking _ => false
  end.

(** Modelled from the spec: what happens while the thread [t] is suspended
    on [dir] (spec 2, control flow; 5).  The happenings are served in
    order; the thread runs again after the first one that releases it,
    and never if none does. *)
Fixpoint serve {P : Platform} {D : Type} (dir : direction) (t : thread)
  (coming : list (happening D)) (d : D) (this : WakeHelper)
  : option (system D) :=
  match coming with
  | [] => None
  | h :: later =>
    let '(d1, this1) := happen h d this in
    if existsb (Nat.eqb t) (suspended_on dir this1)
    then serve dir t later d1 this1
    else Some {| helper := this1; device := d1; pending := later |}
  end.

(** The resumption of the thread [t], for [run_event] below. *)
Definition resume_by_wake {P : Platform} {D : Type} (t : thread)
  : direction -> system D -> option (system D) :=
  fun dir s => serve dir t (pending s) (device s) (suspend dir t (helper s)).

(** Two helpers that differ in their blocking mode at most, and two
    systems that differ at most in this and in the calls of [set_blocking]
    that are to happen. *)
Definition same_but_mode (h1 h2 : WakeHelper) : Prop :=
  _poll_wake_events h1 = _poll_wake_events h2 /\
  _cv_rx h1 = _cv_rx h2 /\
  _cv_tx h1 = _cv_tx h2 /\
  _sigio_cb h1 = _sigio_cb h2.

Definition interrupts_of {D : Type} (hs : list (happening D))
  : list (interrupt D) :=
  flat_map (fun h =>
    match h with
    | Interrupt i => [i]
    | SetsBlocking _ => []
    end) hs.

Definition same_but_modes {D : Type} (s1 s2 : system D) : Prop :=
  device s1 = device s2 /\
  same_but_mode (helper s1) (helper s2) /\
  interrupts_of (pending s1) = interrupts_of (pending s2).

(** Two suspensions that end alike: in no wake at all, or in two such
    systems. *)
Definition same_outcome {D : Type} (o1 o2 : option (system D)) : Prop :=
  match o1, o2 with
  | Some s1, Some s2 => same_but_modes s1 s2
  | None, None => True
  | _, _ => False
  end.

(* ===================================================================== *)
(** * Running a call against a device                                     *)
(* ===================================================================== *)

(** The record of a call of [read] or [write]: the non-blocking members it
    called, with their results, and the suspensions of the thread. *)
Inductive call : Type :=
| CallRead (size : N) (result : Z)
| CallWrite (data : list byte) (result : Z)
| Suspend (dir : direction).

Section Run.
Context {D : Type}.
Variable dev : Device D.

(** [resume dir d] is the state in which a thread suspended on [dir] with
    the device in state [d] finds the device when a wake releases it, and
    [None] if no wake ever does. *)
Variable resume : direction -> D -> option D.

Definition run_event
  : helperE ~> Monads.stateT (D * list call) (itree void1) :=
  fun _ e w =>
    match e with
    | IsStream => Ret (w, is_stream dev (fst w))
    | ReadNonblocking size =>
      let '(r, buf, d') := read_nonblocking dev size (fst w) in
      Ret ((d', snd w ++ [CallRead size r]), (r, buf))
    | WriteNonblocking data =>
      let '(n, d') := write_nonblocking dev data (fst w) in
      Ret ((d', snd w ++ [CallWrite data n]), n)
    | Wait dir =>
      match resume dir (fst w) with
      | Some d' => Ret ((d', snd w ++ [Suspend dir]), tt)
      | None => ITree.spin
      end
    end.

(** [returns t d r d' log]: started with the device in state [d], the call
    [t] returns [r], leaves the device in state [d'] and has made the
    calls and suspensions of [log], in this order. *)
Definition returns {R : Type} (t : itree helperE R) (d : D)
  (r : R) (d' : D) (log : list call) : Prop :=
  interp_state run_event t (d, []) ≈ Ret ((d', log), r).

(** [blocks t d]: the call never returns. *)
Definition blocks {R : Type} (t : itree helperE R) (d : D) : Prop :=
  interp_state run_event t (d, []) ≈ ITree.spin.

End Run.

(** Two runs that have come to two such systems with the same record. *)
Definition same_run {D : Type} (w1 w2 : system D * list call) : Prop :=
  same_but_modes (fst w1) (fst w2) /\ snd w1 = snd w2.

(** The calls of write_nonblocking, of read_nonblocking and the suspensions
    in a record. *)
Definition writes_in (log : list call) : nat :=
  length (filter (fun c =>
    match c with CallWrite _ _ => true | _ => false end) log).

Definition reads_in (log : list call) : nat :=
  length (filter (fun c =>
    match c with CallRead _ _ => true | _ => false end) log).

Definition suspensions_in (log : list call) : nat :=
  length (filter (fun c =>
    match c with Suspend _ => true | _ => false end) log).

(** The callbacks invoked and the threads released among the effects of the
    interrupt side, in order. *)
Definition callbacks (fx : list effect) : list nat :=
  flat_map (fun e => match e with Invoke f => [f] | _ => [] end) fx.

(** The calls of wake_poll among these effects, with their events. *)
Definition poll_wakes (fx : list effect) : list Z :=
  flat_map (fun e => match e with WakePoll events => [events] | _ => [] end)
           fx.

Definition released_on (dir : direction) (fx : list effect)
  : list (list thread) :=
  flat_map (fun e =>
    match e, dir with
    | Signal Rx ts, Rx => [ts]
    | Signal Tx ts, Tx => [ts]
    | _, _ => []
    end) fx.

(** [accepted dev k written rest d log]: the state of a stream write after
    [k] further calls of write_nonblocking that each accepted some bytes
    (a count that is neither the sentinel nor an error), or [None] if one
    of them did not. *)
Fixpoint accepted {P : Platform} {D : Type} (dev : Device D) (k : nat)
  (written : Z) (rest : list byte) (d : D) (log : list call)
  : option (Z * list byte * D * list call) :=
  match k with
  | O => Some (written, rest, d, log)
  | S k' =>
    match rest with
    | [] => None
    | _ :: _ =>
      let '(n, d') := write_nonblocking dev rest d in
      if (n =? - EAGAIN) || (n <? 0) then None
      else accepted dev k' (written + n) (skipn (Z.to_nat n) rest) d'
             (log ++ [CallWrite rest n])
    end
  end.


(* ===================================================================== *)
(** * A scripted device, for evaluation                                   *)
(* ===================================================================== *)

(** A device that answers its non-blocking calls from a script, is not
    ready once the script is over, and polls a fixed mask. *)
Record scripted : Type := {
  stream_mode : bool;
  answers : list Z;
  ready : Z
}.

Definition next_answer {P : Platform} (s : scripted) : Z * scripted :=
  match answers s with
  | [] => (- EAGAIN, s)
  | r :: later =>
    (r, {| stream_mode := stream_mode s; answers := later; ready := ready s |})
  end.

Definition scripted_device {P : Platform} : Device scripted := {|
  is_stream := stream_mode;
  read_nonblocking := fun _ s =>
    let '(r, s') := next_answer s in (r, repeat x00 (Z.to_nat r), s');
  write_nonblocking := fun _ s => next_answer s;
  poll := fun events s => Z.land (ready s) events
|}.

(** The scripted device with mbed's constants. *)
Definition mbed_scripted : Device scripted :=
  scripted_device (P := mbed_platform).

(** The members of a device, on the system it is part of. *)
Definition system_device {D : Type} (dev : Device D) : Device (system D) := {|
  is_stream := fun s => is_stream dev (device s);
  read_nonblocking := fun size s =>
    let '(r, buf, d') := read_nonblocking dev size (device s) in
    (r, buf, {| helper := helper s; device := d'; pending := pending s |});
  write_nonblocking := fun data s =>
    let '(n, d') := write_nonblocking dev data (device s) in
    (n, {| helper := helper s; device := d'; pending := pending s |});
  poll := fun events s => poll dev events (device s)
|}.

(** Interrupts of the scripted device: room to transmit, with nothing to
    read; and the arrival of two bytes. *)
Definition room_to_send : happening scripted :=
  Interrupt {| occurs := fun s => s; reports := 0x0010 |}.

Definition two_bytes_arrive : happening scripted :=
  Interrupt
    {| occurs := fun s =>
         {| stream_mode := stream_mode s; answers := answers s ++ [2];
            ready := Z.lor (ready s) 0x0001 |};
       reports := 0x0001 |}.

(** The other end hangs up: nothing more to read or to write. *)
Definition hangup : happening scripted :=
  Interrupt {| occurs := fun s => s; reports := 0x2000 |}.

(** Every suspension is ended by a wake, with the device as it was; or by
    none. *)
Definition woken : direction -> scripted -> option scripted :=
  fun _ s => Some s.

Definition never_woken : direction -> scripted -> option scripted :=
  fun _ _ => None.

Definition hello : list byte := [x68; x65; x6c; x6c; x6f].

(** A helper put in non-blocking mode, and one with a callback. *)
Definition nonblocking_helper : WakeHelper :=
  snd (Helper.set_blocking false Helper.FileHandleDeviceWakeHelper).


(** A device on which nothing is ready, the helper above once it has armed
    POLLIN and POLLOUT (17) on it, and a helper with threads suspended on
    both wait primitives. *)
Definition idle_device : scripted :=
  {| stream_mode := true; answers := []; ready := 0 |}.



(* ===================================================================== *)
(** * Sequences of calls                                                  *)
(* ===================================================================== *)

(** The members of FileHandle whose default body calls neither [seek] nor
    [size] nor [poll], as a caller invokes them on a handle. *)
Inductive plain_call : Type :=
| CallSync
| CallIsatty
| CallFsync
| CallSetBlocking (blocking : bool)
| CallPollWithWake (events : Z) (wake : bool)
| CallSigio (func : Callback).

(** One such call, through the table of the handle: its result, if it has
    one, and the handle after it. *)
Definition plain_call_run {St : Type} (this : FileHandle St)
  (c : plain_call) (s : St) : option Z * St :=
  match c with
  | CallSync => let '(r, s') := vsync this s in (Some r, s')
  | CallIsatty => let '(r, s') := visatty this s in (Some r, s')
  | CallFsync => let '(r, s') := vfsync this s in (Some r, s')
  | CallSetBlocking b => let '(r, s') := vset_blocking this b s in (Some r, s')
  | CallPollWithWake events wake =>
    let '(r, s') := vpoll_with_wake this events wake s in (Some r, s')
  | CallSigio func => (None, vsigio this func s)
  end.

(** A sequence of them, in order. *)
Fixpoint plain_calls_run {St : Type} (this : FileHandle St)
  (cs : list plain_call) (s : St) : list (option Z) * St :=
  match cs with
  | [] => ([], s)
  | c :: later =>
    let '(r, s1) := plain_call_run this c s in
    let '(rs, s2) := plain_calls_run this later s1 in
    (r :: rs, s2)
  end.

(** A handle of a class that overrides none of these members. *)
Record keeps_plain_defaults {P : Platform} {St : Type}
  (this : FileHandle St) : Prop := {
  keeps_sync : vsync this = Base.sync;
  keeps_isatty : visatty this = Base.isatty;
  keeps_fsync : vfsync this = Base.fsync this;
  keeps_set_blocking : vset_blocking this = Base.set_blocking;
  keeps_poll_with_wake : vpoll_with_wake this = Base.poll_with_wake;
  keeps_sigio : vsigio this = Base.sigio
}.

(** What each of these calls returns on such a handle. *)
Definition plain_default_result {P : Platform} (c : plain_call) : option Z :=
  match c with
  | CallSync | CallIsatty | CallFsync => Some 0
  | CallSetBlocking _ => Some (-1)
  | CallPollWithWake _ _ => Some POLLNVAL
  | CallSigio _ => None
  end.

(** A sequence of calls of [set_blocking] on the helper, in order, with
    the results of the calls. *)
Fixpoint set_blocking_calls (modes : list bool) (this : WakeHelper)
  : list Z * WakeHelper :=
  match modes with
  | [] => ([], this)
  | b :: later =>
    let '(r, this1) := Helper.set_blocking b this in
    let '(rs, this2) := set_blocking_calls later this1 in
    (r :: rs, this2)
  end.

(* ===================================================================== *)
(** * Four statements of the specification, as they stand                 *)
(* ===================================================================== *)


(** In non-blocking mode a write during which write_nonblocking reports
    the not-ready sentinel returns the sentinel. *)
Definition not_ready_gives_sentinel {P : Platform} {D : Type} (dev : Device D)
  (resume : direction -> D -> option D) (this : WakeHelper)
  (data : list byte) (d : D) : Prop :=
  Helper.is_blocking this = false ->
  forall n d' log,
    returns dev resume (Helper.write this data) d n d' log ->
    (exists asked, In (CallWrite asked (- EAGAIN)) log) ->
    n = - EAGAIN.




(* ===================================================================== *)
(** * Arithmetic of masks and of [short]                                  *)
(* ===================================================================== *)

Lemma to_short_id (z : Z) : is_short z -> to_short z = z.
Proof.
  unfold is_short, to_short. intros H.
  rewrite Z.mod_small by lia. lia.
Qed.

(** A [short] is a number whose bits from bit 15 on are all equal. *)
Lemma is_short_shiftr (z : Z) :
  is_short z <-> Z.shiftr z 15 = 0 \/ Z.shiftr z 15 = -1.
Proof.
  unfold is_short. rewrite Z.shiftr_div_pow2 by lia.
  change (2 ^ 15) with 32768.
  pose proof (Z.div_mod z 32768 ltac:(lia)) as Hdm.
  pose proof (Z.mod_pos_bound z 32768 ltac:(lia)) as Hb.
  split; intros H; lia.
Qed.

Lemma shiftr_lnot (z n : Z) :
  0 <= n -> Z.shiftr (Z.lnot z) n = Z.lnot (Z.shiftr z n).
Proof.
  intros Hn. apply Z.bits_inj'. intros i Hi.
  rewrite Z.shiftr_spec, !Z.lnot_spec, Z.shiftr_spec by lia. reflexivity.
Qed.

Lemma is_short_land (a b : Z) :
  is_short a -> is_short b -> is_short (Z.land a b).
Proof.
  rewrite !is_short_shiftr, Z.shiftr_land.
  intros [-> | ->] [-> | ->]; cbn; auto.
Qed.

Lemma is_short_lor (a b : Z) :
  is_short a -> is_short b -> is_short (Z.lor a b).
Proof.
  rewrite !is_short_shiftr, Z.shiftr_lor.
  intros [-> | ->] [-> | ->]; cbn; auto.
Qed.

Lemma is_short_lnot (a : Z) : is_short a -> is_short (Z.lnot a).
Proof.
  rewrite !is_short_shiftr, shiftr_lnot by lia.
  intros [-> | ->]; cbn; auto.
Qed.

Create HintDb short.
#[local] Hint Resolve is_short_land is_short_lor is_short_lnot : short.

Lemma to_bool_true (z : Z) : to_bool z = true <-> z <> 0.
Proof.
  unfold to_bool. rewrite negb_true_iff, Z.eqb_neq. reflexivity.
Qed.

(** Masking with a single bit tests that bit. *)
Lemma land_pow2 (m k : Z) :
  0 <= k -> Z.land m (2 ^ k) = if Z.testbit m k then 2 ^ k else 0.
Proof.
  intros Hk. apply Z.bits_inj'. intros i Hi.
  rewrite Z.land_spec, Z.pow2_bits_eqb by assumption.
  destruct (Z.eqb_spec k i) as [<- | Hne].
  - destruct (Z.testbit m k) eqn:E; cbn.
    + rewrite Z.pow2_bits_eqb, Z.eqb_refl by assumption. reflexivity.
    + rewrite Z.bits_0. reflexivity.
  - rewrite andb_false_r.
    destruct (Z.testbit m k).
    + rewrite Z.pow2_bits_eqb by assumption.
      symmetry. apply Z.eqb_neq. assumption.
    + rewrite Z.bits_0. reflexivity.
Qed.

Lemma to_bool_land_pow2 (m k : Z) :
  0 <= k -> to_bool (Z.land m (2 ^ k)) = Z.testbit m k.
Proof.
  intros Hk. rewrite land_pow2 by assumption.
  destruct (Z.testbit m k); [| reflexivity].
  apply to_bool_true. apply Z.pow_nonzero; lia.
Qed.



(* ===================================================================== *)
(** * FileHandle: the defaults                                            *)
(* ===================================================================== *)

Section Defaults.
Context {P : Platform} {St : Type}.
Variable this : FileHandle St.

Lemma readable_iff (s : St) :
  Base.readable this s = true <-> Z.land (vpoll this POLLIN s) POLLIN <> 0.
Proof. unfold Base.readable. apply to_bool_true. Qed.

Lemma writable_iff (s : St) :
  Base.writable this s = true <-> Z.land (vpoll this POLLOUT s) POLLOUT <> 0.
Proof. unfold Base.writable. apply to_bool_true. Qed.

(** The inherited members of a class built by [inherit_defaults] are the
    bodies of FileHandle bound to the class's own table. *)
Lemma inherit_defaults_dispatch read write seek close size :
  let fh := inherit_defaults (St := St) read write seek close size in
  vtell fh = Base.tell fh /\ vrewind fh = Base.rewind fh /\
  vlseek fh = Base.lseek fh /\ vfsync fh = Base.fsync fh /\
  vflen fh = Base.flen fh /\ vpoll fh = Base.poll /\
  vset_blocking fh = Base.set_blocking.
Proof. cbv zeta. repeat split. Qed.

End Defaults.

Lemma mbed_flags_ok : flags_ok mbed_platform.
Proof. constructor; cbn; solve [lia | reflexivity]. Qed.

(** C1. For every file handle and every state of it, [readable()] is true
    exactly when the mask that [poll(POLLIN)] returns meets POLLIN, and
    [writable()] exactly when the mask that [poll(POLLOUT)] returns meets
    POLLOUT; with POLLIN and POLLOUT single bits, each is the value of that
    bit in the mask.  Both depend on nothing but the mask: a handle (of any
    class, in any state) whose [poll] returns the same mask gives the same
    answer. *)
Theorem readable_writable_mask_poll {P : Platform} {St : Type}
  (this : FileHandle St) (s : St) (kin kout : Z)
  (Hkin : 0 <= kin) (Hkout : 0 <= kout)
  (Hin : POLLIN = 2 ^ kin) (Hout : POLLOUT = 2 ^ kout) :
  (Base.readable this s = true <->
     Z.land (vpoll this POLLIN s) POLLIN <> 0) /\
  (Base.writable this s = true <->
     Z.land (vpoll this POLLOUT s) POLLOUT <> 0) /\
  Base.readable this s = Z.testbit (vpoll this POLLIN s) kin /\
  Base.writable this s = Z.testbit (vpoll this POLLOUT s) kout /\
  (forall (St' : Type) (other : FileHandle St') (s' : St'),
     vpoll other POLLIN s' = vpoll this POLLIN s ->
     Base.readable other s' = Base.readable this s) /\
  (forall (St' : Type) (other : FileHandle St') (s' : St'),
     vpoll other POLLOUT s' = vpoll this POLLOUT s ->
     Base.writable other s' = Base.writable this s).
Proof.
  split; [apply readable_iff |].
  split; [apply writable_iff |].
  split.
  { unfold Base.readable. rewrite Hin. apply to_bool_land_pow2, Hkin. }
  split.
  { unfold Base.writable. rewrite Hout. apply to_bool_land_pow2, Hkout. }
  split; intros St' other s' Hsame.
  - unfold Base.readable. rewrite Hsame. reflexivity.
  - unfold Base.writable. rewrite Hsame. reflexivity.
Qed.

Lemma readable_writable_mask_poll_witness :
  Base.readable (P := mbed_platform) mbed_file 3
    = Z.testbit (vpoll mbed_file 1 3) 0 /\
  Base.writable (P := mbed_platform) mbed_file 3
    = Z.testbit (vpoll mbed_file 16 3) 4.
Proof.
  pose proof (readable_writable_mask_poll (P := mbed_platform)
                mbed_file 3 0 4 ltac:(lia) ltac:(lia)
                eq_refl eq_refl) as (_ & _ & Hr & Hw & _).
  split; [exact Hr | exact Hw].
Defined.

(** C7. For every file handle, the default [tell()] returns what
    [seek(0, SEEK_CUR)] returns on this handle and leaves the handle as
    that call leaves it; the default [rewind()] leaves the handle as
    [seek(0, SEEK_SET)] leaves it, whatever this call returns: two [seek]
    members that differ in their result only give the same [rewind].  In a
    class that inherits them, the virtual calls reach these bodies. *)
Theorem tell_rewind_default {P : Platform} {St : Type}
  (this : FileHandle St) (s : St) :
  Base.tell this s = vseek this 0 SEEK_CUR s /\
  Base.rewind this s = snd (vseek this 0 SEEK_SET s) /\
  (forall other : FileHandle St,
     snd (vseek other 0 SEEK_SET s) = snd (vseek this 0 SEEK_SET s) ->
     Base.rewind other s = Base.rewind this s) /\
  (forall read write seek close size,
     vtell (inherit_defaults read write seek close size) s
       = seek 0 SEEK_CUR s /\
     vrewind (inherit_defaults read write seek close size) s
       = snd (seek 0 SEEK_SET s)).
Proof.
  split; [reflexivity |].
  split; [reflexivity |].
  split.
  - intros other Hsame. unfold Base.rewind. exact Hsame.
  - intros. split; reflexivity.
Qed.

(** C9. The legacy members forward: for every file handle, offset and
    origin, [lseek(offset, whence)] is [seek(offset, whence)], [fsync()]
    is [sync()] and [flen()] is [size()], in result and in effect on the
    handle; in a class that inherits them the virtual calls [lseek],
    [fsync] and [flen] reach the class's own [seek], [sync] and [size]. *)
Theorem legacy_members_forward {P : Platform} {St : Type}
  (this : FileHandle St) (offset whence : Z) (s : St) :
  Base.lseek this offset whence s = vseek this offset whence s /\
  Base.fsync this s = vsync this s /\
  Base.flen this s = vsize this s /\
  (forall read write seek close size,
     let fh := inherit_defaults read write seek close size in
     vlseek fh offset whence s = seek offset whence s /\
     vfsync fh s = vsync fh s /\
     vflen fh s = size s).
Proof.
  repeat split.
Qed.

(** C10. With poll flags that are distinct non-empty masks of a
    non-negative [short], the default [poll] of FileHandle returns
    POLLIN | POLLOUT for every argument and in every state: the result does
    not depend on the bits asked for, has POLLOUT when only POLLIN is asked
    for (and POLLIN when only POLLOUT is), never meets POLLERR, POLLHUP or
    POLLNVAL, and on a handle whose [poll] is this default [readable()] and
    [writable()] are true. *)
Theorem default_poll_mask {P : Platform} {St : Type} (Hok : flags_ok P)
  (this : FileHandle St) (events events' : Z) (s s' : St) :
  Base.poll events s = Z.lor POLLIN POLLOUT /\
  Base.poll events s = Base.poll events' s' /\
  Z.land (Base.poll POLLIN s) POLLOUT = POLLOUT /\
  Z.land (Base.poll POLLOUT s) POLLIN = POLLIN /\
  Z.land POLLIN POLLOUT = 0 /\
  Z.land (Base.poll events s) POLLERR = 0 /\
  Z.land (Base.poll events s) POLLHUP = 0 /\
  Z.land (Base.poll events s) POLLNVAL = 0 /\
  (vpoll this = Base.poll ->
   Base.readable this s = true /\ Base.writable this s = true).
Proof.
  destruct Hok as [Hin Hout _ _ _ Hio Hie Hih Hin' Hoe Hoh Hon].
  assert (Hpoll : forall e (x : St), Base.poll e x = Z.lor POLLIN POLLOUT).
  { intros e x. unfold Base.poll. apply to_short_id.
    assert (is_short POLLIN) by (unfold is_short; lia).
    assert (is_short POLLOUT) by (unfold is_short; lia).
    auto with short. }
  rewrite !Hpoll.
  assert (Hi : Z.land (Z.lor POLLIN POLLOUT) POLLIN = POLLIN).
  { rewrite Z.land_comm, Z.land_lor_distr_r, Z.land_diag, Hio.
    apply Z.lor_0_r. }
  assert (Ho : Z.land (Z.lor POLLIN POLLOUT) POLLOUT = POLLOUT).
  { rewrite Z.land_comm, Z.land_lor_distr_r, Z.land_diag.
    rewrite (Z.land_comm POLLOUT POLLIN), Hio. apply Z.lor_0_l. }
  split; [reflexivity |]. split; [reflexivity |].
  split; [exact Ho |]. split; [exact Hi |]. split; [exact Hio |].
  split; [| split; [| split]].
  - rewrite Z.land_comm, Z.land_lor_distr_r.
    rewrite (Z.land_comm POLLERR POLLIN), (Z.land_comm POLLERR POLLOUT).
    rewrite Hie, Hoe. reflexivity.
  - rewrite Z.land_comm, Z.land_lor_distr_r.
    rewrite (Z.land_comm POLLHUP POLLIN), (Z.land_comm POLLHUP POLLOUT).
    rewrite Hih, Hoh. reflexivity.
  - rewrite Z.land_comm, Z.land_lor_distr_r.
    rewrite (Z.land_comm POLLNVAL POLLIN), (Z.land_comm POLLNVAL POLLOUT).
    rewrite Hin', Hon. reflexivity.
  - intros Hdefault. split.
    + apply readable_iff. rewrite Hdefault, Hpoll, Hi. lia.
    + apply writable_iff. rewrite Hdefault, Hpoll, Ho. lia.
Qed.

Lemma default_poll_mask_witness :
  Base.poll (P := mbed_platform) 0 7 = 17 /\
  Z.land (Base.poll (P := mbed_platform) 0 7) 0x1000 = 0 /\
  Base.readable (P := mbed_platform) mbed_file 7 = true /\
  Base.writable (P := mbed_platform) mbed_file 7 = true.
Proof.
  pose proof (default_poll_mask (P := mbed_platform) mbed_flags_ok
                mbed_file 0 0 7 7)
    as (Hp & _ & _ & _ & _ & He & _ & _ & Hrw).
  destruct (Hrw eq_refl) as [Hr Hw].
  split; [exact Hp |].
  split; [exact He |].
  split; [exact Hr | exact Hw].
Defined.

(* ===================================================================== *)
(** * FileHandleDeviceWakeHelper: construction and blocking mode          *)
(* ===================================================================== *)

Lemma wake_fresh_helper {P : Platform} (events : Z) :
  callbacks (snd (Helper.wake events Helper.FileHandleDeviceWakeHelper))
    = [] /\
  _poll_wake_events
    (fst (Helper.wake events Helper.FileHandleDeviceWakeHelper)) = 0.
Proof.
  unfold Helper.wake, Helper.wake_rx, Helper.wake_tx, Helper.wake_registration.
  destruct (to_bool (Z.land events Helper.rx_events));
    destruct (to_bool (Z.land events Helper.tx_events));
    cbn; rewrite Z.land_0_r; cbn; auto.
Qed.

(** C8. A helper as its constructor leaves it is in blocking mode, has no
    bit armed in its single-shot registration, has no callback registered
    and nobody waiting on its wait primitives; a wake then invokes no
    callback, whatever the events. *)
Theorem fresh_helper_state {P : Platform} :
  Helper.is_blocking Helper.FileHandleDeviceWakeHelper = true /\
  _poll_wake_events Helper.FileHandleDeviceWakeHelper = 0 /\
  (forall k, Z.testbit (_poll_wake_events Helper.FileHandleDeviceWakeHelper) k
             = false) /\
  _sigio_cb Helper.FileHandleDeviceWakeHelper = None /\
  waiters (_cv_rx Helper.FileHandleDeviceWakeHelper) = [] /\
  waiters (_cv_tx Helper.FileHandleDeviceWakeHelper) = [] /\
  (forall events,
     callbacks (snd (Helper.wake events Helper.FileHandleDeviceWakeHelper))
       = []).
Proof.
  repeat split.
  - intros k. cbn. apply Z.bits_0.
  - intros events. apply wake_fresh_helper.
Qed.

(* ===================================================================== *)
(** * Runs of read and write                                              *)
(* ===================================================================== *)

(** A thread that is never released does nothing more. *)
Lemma bind_spin {E : Type -> Type} {A B : Type} (k : A -> itree E B) :
  ITree.bind (ITree.spin : itree E A) k ≅ ITree.spin.
Proof.
  pcofix CIH. pstep. unfold eqit_. cbn. constructor. right. apply CIH.
Qed.

Section RunFacts.
Context {P : Platform} {D : Type}.
Variable dev : Device D.
Variable resume : direction -> D -> option D.

Local Abbreviation run := (interp_state (run_event dev resume)).

Lemma run_is_stream (d : D) (log : list call) :
  run (ITree.trigger IsStream) (d, log) ≈ Ret ((d, log), is_stream dev d).
Proof. rewrite interp_state_trigger. cbn. reflexivity. Qed.

Lemma run_read_nonblocking (size : N) (d : D) (log : list call) :
  run (ITree.trigger (ReadNonblocking size)) (d, log)
  ≈ Ret ((snd (read_nonblocking dev size d),
          log ++ [CallRead size (fst (fst (read_nonblocking dev size d)))]),
         fst (read_nonblocking dev size d)).
Proof.
  rewrite interp_state_trigger. cbn.
  destruct (read_nonblocking dev size d) as [[r buf] d']. reflexivity.
Qed.

Lemma run_write_nonblocking (data : list byte) (d : D) (log : list call) :
  run (ITree.trigger (WriteNonblocking data)) (d, log)
  ≈ Ret ((snd (write_nonblocking dev data d),
          log ++ [CallWrite data (fst (write_nonblocking dev data d))]),
         fst (write_nonblocking dev data d)).
Proof.
  rewrite interp_state_trigger. cbn.
  destruct (write_nonblocking dev data d) as [n d']. reflexivity.
Qed.

Lemma run_wait_woken (dir : direction) (d d' : D) (log : list call) :
  resume dir d = Some d' ->
  run (ITree.trigger (Wait dir)) (d, log)
  ≈ Ret ((d', log ++ [Suspend dir]), tt).
Proof.
  intros H. rewrite interp_state_trigger. cbn. rewrite H. reflexivity.
Qed.

Lemma run_wait_forever (dir : direction) (d : D) (log : list call) :
  resume dir d = None ->
  run (ITree.trigger (Wait dir)) (d, log) ≈ ITree.spin.
Proof.
  intros H. rewrite interp_state_trigger. cbn. rewrite H. reflexivity.
Qed.

(** A call returns one result, in one way. *)
Lemma returns_unique {R : Type} (t : itree helperE R) (d : D)
  (r1 r2 : R) (d1 d2 : D) (log1 log2 : list call) :
  returns dev resume t d r1 d1 log1 ->
  returns dev resume t d r2 d2 log2 ->
  r1 = r2 /\ d1 = d2 /\ log1 = log2.
Proof.
  unfold returns. intros H1 H2. rewrite H1 in H2.
  apply eutt_inv_Ret in H2. inversion H2. auto.
Qed.

Lemma blocks_not_returns {R : Type} (t : itree helperE R) (d : D)
  (r : R) (d' : D) (log : list call) :
  blocks dev resume t d -> ~ returns dev resume t d r d' log.
Proof.
  unfold blocks, returns. intros H1 H2. rewrite H1 in H2.
  apply eutt_spin_Ret_abs in H2. exact H2.
Qed.

(** One turn of the loop of a stream write. *)
Lemma write_stream_unfold (blocking : bool) (st : Z * list byte) :
  Helper.write_stream blocking st
  ≅ (lr <- Helper.write_stream_step blocking st ;;
     match lr with
     | inl st' => Tau (Helper.write_stream blocking st')
     | inr n => Ret n
     end).
Proof. unfold Helper.write_stream. rewrite unfold_iter. reflexivity. Qed.

Lemma read_loop_unfold (blocking : bool) (size : N) :
  Helper.read_loop blocking size
  ≅ (r <- ITree.trigger (ReadNonblocking size) ;;
     if (fst r =? - EAGAIN) && blocking
     then ITree.trigger (Wait Rx) ;; Tau (Helper.read_loop blocking size)
     else Ret r).
Proof.
  unfold Helper.read_loop. rewrite unfold_iter, bind_bind.
  apply eqit_bind; [reflexivity |]. intros r.
  destruct ((fst r =? - EAGAIN) && blocking).
  - rewrite bind_bind. apply eqit_bind; [reflexivity |]. intros [].
    rewrite bind_ret_l. reflexivity.
  - rewrite bind_ret_l. reflexivity.
Qed.

(** What one attempt of a read comes to. *)
Lemma run_read_loop (blocking : bool) (size : N) (d : D) (log : list call) :
  run (Helper.read_loop blocking size) (d, log)
  ≈ (let '(r, buf, d1) := read_nonblocking dev size d in
     if (r =? - EAGAIN) && blocking then
       match resume Rx d1 with
       | Some d2 =>
         run (Helper.read_loop blocking size)
             (d2, log ++ [CallRead size r; Suspend Rx])
       | None => ITree.spin
       end
     else Ret ((d1, log ++ [CallRead size r]), (r, buf))).
Proof.
  rewrite read_loop_unfold at 1.
  rewrite interp_state_bind, run_read_nonblocking, bind_ret_l.
  destruct (read_nonblocking dev size d) as [[r buf] d1]. cbn.
  destruct ((r =? - EAGAIN) && blocking).
  - rewrite interp_state_bind.
    destruct (resume Rx d1) as [d2 |] eqn:E.
    + rewrite (run_wait_woken Rx d1 d2) by assumption.
      rewrite bind_ret_l, interp_state_tau, tau_eutt, <- app_assoc.
      reflexivity.
    + rewrite run_wait_forever by assumption. rewrite bind_spin.
      reflexivity.
  - rewrite interp_state_ret. reflexivity.
Qed.

Lemma write_datagram_unfold (blocking : bool) (data : list byte) :
  Helper.write_datagram blocking data
  ≅ (n <- ITree.trigger (WriteNonblocking data) ;;
     if (n =? - EAGAIN) && blocking
     then ITree.trigger (Wait Tx) ;;
          Tau (Helper.write_datagram blocking data)
     else Ret n).
Proof.
  unfold Helper.write_datagram. rewrite unfold_iter, bind_bind.
  apply eqit_bind; [reflexivity |]. intros n.
  destruct ((n =? - EAGAIN) && blocking).
  - rewrite bind_bind. apply eqit_bind; [reflexivity |]. intros [].
    rewrite bind_ret_l. reflexivity.
  - rewrite bind_ret_l. reflexivity.
Qed.

(** What one attempt of a write to a datagram device comes to. *)
Lemma run_write_datagram (blocking : bool) (data : list byte)
  (d : D) (log : list call) :
  run (Helper.write_datagram blocking data) (d, log)
  ≈ (let '(n, d1) := write_nonblocking dev data d in
     if (n =? - EAGAIN) && blocking then
       match resume Tx d1 with
       | Some d2 =>
         run (Helper.write_datagram blocking data)
             (d2, log ++ [CallWrite data n; Suspend Tx])
       | None => ITree.spin
       end
     else Ret ((d1, log ++ [CallWrite data n]), n)).
Proof.
  rewrite write_datagram_unfold at 1.
  rewrite interp_state_bind, run_write_nonblocking, bind_ret_l.
  destruct (write_nonblocking dev data d) as [n d1]. cbn.
  destruct ((n =? - EAGAIN) && blocking).
  - rewrite interp_state_bind.
    destruct (resume Tx d1) as [d2 |] eqn:E.
    + rewrite (run_wait_woken Tx d1 d2) by assumption.
      rewrite bind_ret_l, interp_state_tau, tau_eutt, <- app_assoc.
      reflexivity.
    + rewrite run_wait_forever by assumption. rewrite bind_spin.
      reflexivity.
  - rewrite interp_state_ret. reflexivity.
Qed.

(** What one turn of a stream write comes to. *)
Lemma run_write_stream (blocking : bool) (written : Z) (rest : list byte)
  (d : D) (log : list call) :
  run (Helper.write_stream blocking (written, rest)) (d, log)
  ≈ match rest with
    | [] => Ret ((d, log), written)
    | _ :: _ =>
      let '(n, d1) := write_nonblocking dev rest d in
      if n =? - EAGAIN then
        if blocking then
          match resume Tx d1 with
          | Some d2 =>
            run (Helper.write_stream blocking (written, rest))
                (d2, log ++ [CallWrite rest n; Suspend Tx])
          | None => ITree.spin
          end
        else Ret ((d1, log ++ [CallWrite rest n]),
                  if 0 <? written then written else n)
      else if n <? 0 then Ret ((d1, log ++ [CallWrite rest n]), n)
      else run (Helper.write_stream blocking
                  (written + n, skipn (Z.to_nat n) rest))
               (d1, log ++ [CallWrite rest n])
    end.
Proof.
  rewrite write_stream_unfold at 1.
  destruct rest as [| b rest]; cbn [Helper.write_stream_step].
  - rewrite bind_ret_l, interp_state_ret. reflexivity.
  - rewrite bind_bind, interp_state_bind, run_write_nonblocking, bind_ret_l.
    destruct (write_nonblocking dev (b :: rest) d) as [n d1]. cbn.
    destruct (n =? - EAGAIN); [destruct blocking |].
    + rewrite bind_bind, interp_state_bind.
      destruct (resume Tx d1) as [d2 |] eqn:E.
      * rewrite (run_wait_woken Tx d1 d2) by assumption.
        rewrite !bind_ret_l, interp_state_tau, tau_eutt, <- app_assoc.
        reflexivity.
      * rewrite run_wait_forever by assumption. rewrite bind_spin.
        reflexivity.
    + rewrite bind_ret_l, interp_state_ret. reflexivity.
    + destruct (n <? 0).
      * rewrite bind_ret_l, interp_state_ret. reflexivity.
      * rewrite bind_ret_l, interp_state_tau, tau_eutt. reflexivity.
Qed.

(** What a write comes to: nothing for no data, and the stream or the
    datagram form otherwise. *)
Lemma run_write (this : WakeHelper) (data : list byte)
  (d : D) (log : list call) :
  run (Helper.write this data) (d, log)
  ≈ match data with
    | [] => Ret ((d, log), 0)
    | _ :: _ =>
      if is_stream dev d
      then run (Helper.write_stream (Helper.is_blocking this) (0, data))
               (d, log)
      else run (Helper.write_datagram (Helper.is_blocking this) data)
               (d, log)
    end.
Proof.
  unfold Helper.write. destruct data as [| b data].
  - rewrite interp_state_ret. reflexivity.
  - rewrite interp_state_bind, run_is_stream, bind_ret_l. cbn.
    destruct (is_stream dev d); reflexivity.
Qed.

(** The calls that accepted bytes bring a stream write to the state
    [accepted] computes. *)
Lemma run_write_stream_accepted (blocking : bool) (k : nat) :
  forall written rest d log written' rest' d' log',
    accepted dev k written rest d log = Some (written', rest', d', log') ->
    run (Helper.write_stream blocking (written, rest)) (d, log)
    ≈ run (Helper.write_stream blocking (written', rest')) (d', log').
Proof.
  induction k as [| k IH]; intros written rest d log written' rest' d' log'.
  - cbn. intros [= -> -> -> ->]. reflexivity.
  - cbn [accepted]. destruct rest as [| b rest]; [discriminate |].
    rewrite run_write_stream.
    destruct (write_nonblocking dev (b :: rest) d) as [n d1].
    destruct (n =? - EAGAIN); [discriminate |].
    destruct (n <? 0); [discriminate |]. cbn [orb].
    apply IH.
Qed.

(** These calls are calls of write_nonblocking and nothing else. *)
Lemma accepted_log (k : nat) :
  forall written rest d log written' rest' d' log',
    accepted dev k written rest d log = Some (written', rest', d', log') ->
    exists added,
      log' = log ++ added /\ writes_in added = k /\
      suspensions_in added = 0%nat /\ reads_in added = 0%nat.
Proof.
  induction k as [| k IH]; intros written rest d log written' rest' d' log'.
  - cbn. intros [= -> -> -> ->]. exists []. rewrite app_nil_r. auto.
  - cbn [accepted]. destruct rest as [| b rest]; [discriminate |].
    destruct (write_nonblocking dev (b :: rest) d) as [n d1].
    destruct ((n =? - EAGAIN) || (n <? 0)); [discriminate |].
    intros H. apply IH in H. destruct H as (added & -> & Hw & Hs & Hr).
    exists (CallWrite (b :: rest) n :: added).
    rewrite <- app_assoc. cbn. unfold writes_in in *. cbn.
    repeat split; auto.
Qed.



End RunFacts.

(** One step of a run on a device that computes. *)
Ltac run_step :=
  first [ rewrite run_write_stream
        | rewrite run_write_datagram
        | rewrite run_read_loop
        | rewrite run_write ];
  simpl.

(* ===================================================================== *)
(** * The interrupt side: wake                                            *)
(* ===================================================================== *)

Section WakeFacts.
Context {P : Platform}.

(** What a wake does, member by member. *)
Lemma wake_outcome (events : Z) (this : WakeHelper) :
  let after := fst (Helper.wake events this) in
  let fx := snd (Helper.wake events this) in
  _blocking after = _blocking this /\
  _sigio_cb after = _sigio_cb this /\
  _poll_wake_events after =
    (if to_bool (Z.land events (_poll_wake_events this))
     then to_short (Z.land (_poll_wake_events this) (Z.lnot events))
     else _poll_wake_events this) /\
  callbacks fx =
    match _sigio_cb this with Some f => [f] | None => [] end /\
  released_on Rx fx =
    (if to_bool (Z.land events Helper.rx_events)
     then [waiters (_cv_rx this)] else []) /\
  released_on Tx fx =
    (if to_bool (Z.land events Helper.tx_events)
     then [waiters (_cv_tx this)] else []) /\
  waiters (_cv_rx after) =
    (if to_bool (Z.land events Helper.rx_events)
     then [] else waiters (_cv_rx this)) /\
  waiters (_cv_tx after) =
    (if to_bool (Z.land events Helper.tx_events)
     then [] else waiters (_cv_tx this)) /\
  poll_wakes fx =
    (if to_bool (Z.land events (_poll_wake_events this))
     then [events] else []).
Proof.
  unfold Helper.wake, Helper.wake_rx, Helper.wake_tx,
    Helper.wake_registration, Helper.wake_sigio.
  destruct (to_bool (Z.land events Helper.rx_events));
    destruct (to_bool (Z.land events Helper.tx_events)); cbn;
    destruct (to_bool (Z.land events (_poll_wake_events this))); cbn;
    destruct (_sigio_cb this); cbn; repeat split; reflexivity.
Qed.

(** A wake does not look at the blocking mode. *)
Lemma wake_same_but_mode (events : Z) (h1 h2 : WakeHelper) :
  same_but_mode h1 h2 ->
  same_but_mode (fst (Helper.wake events h1)) (fst (Helper.wake events h2)).
Proof.
  destruct h1 as [b1 e1 rx1 tx1 cb1], h2 as [b2 e2 rx2 tx2 cb2].
  unfold same_but_mode. cbn. intros (-> & -> & -> & ->).
  unfold Helper.wake, Helper.wake_rx, Helper.wake_tx,
    Helper.wake_registration, Helper.wake_sigio. cbn.
  destruct (to_bool (Z.land events Helper.rx_events));
    destruct (to_bool (Z.land events Helper.tx_events)); cbn;
    destruct (to_bool (Z.land events e2)); cbn; repeat split.
Qed.

(** On masks that are [short]s the registration loses the bits of the
    events, and only when it meets them. *)
Lemma wake_registration_short (events : Z) (this : WakeHelper) :
  is_short (_poll_wake_events this) -> is_short events ->
  is_short (_poll_wake_events (fst (Helper.wake events this))) /\
  _poll_wake_events (fst (Helper.wake events this)) =
    (if to_bool (Z.land events (_poll_wake_events this))
     then Z.land (_poll_wake_events this) (Z.lnot events)
     else _poll_wake_events this).
Proof.
  intros Hs He.
  destruct (wake_outcome events this) as (_ & _ & -> & _).
  destruct (to_bool (Z.land events (_poll_wake_events this))); [| auto].
  rewrite to_short_id by auto with short.
  split; [auto with short | reflexivity].
Qed.



(** A run of wakes arms nothing: a mask that does not meet the
    registration before does not meet it after. *)
Lemma wakes_arm_nothing (mask : Z) (reported : list Z) :
  forall this,
    is_short (_poll_wake_events this) ->
    Forall is_short reported ->
    Z.land mask (_poll_wake_events this) = 0 ->
    let after := fst (Helper.wakes reported this) in
    is_short (_poll_wake_events after) /\
    Z.land mask (_poll_wake_events after) = 0.
Proof.
  induction reported as [| e later IH]; intros this Hs Hshort Hmask.
  - cbn. auto.
  - inversion Hshort as [| ? ? He Hshort']; subst.
    cbn [Helper.wakes].
    pose proof (wake_registration_short e this Hs He) as [Hs1 Hv1].
    destruct (Helper.wake e this) as [this1 fx1]. cbn [fst snd] in *.
    assert (Hmask1 : Z.land mask (_poll_wake_events this1) = 0).
    { rewrite Hv1.
      destruct (to_bool (Z.land e (_poll_wake_events this))); [| assumption].
      rewrite Z.land_assoc, Hmask. apply Z.land_0_l. }
    specialize (IH this1 Hs1 Hshort' Hmask1).
    destruct (Helper.wakes later this1) as [this2 fx2]. exact IH.
Qed.


End WakeFacts.

(* ===================================================================== *)
(** * Suspension and wake                                                 *)
(* ===================================================================== *)

Section ServeFacts.
Context {P : Platform} {D : Type}.

Lemma existsb_thread (t : thread) (ts : list thread) :
  existsb (Nat.eqb t) ts = true <-> In t ts.
Proof.
  rewrite existsb_exists. split.
  - intros (x & Hin & Heq). apply Nat.eqb_eq in Heq. subst. assumption.
  - intros Hin. exists t. split; [assumption | apply Nat.eqb_refl].
Qed.

Lemma suspend_suspends (dir : direction) (t : thread) (this : WakeHelper) :
  In t (suspended_on dir (suspend dir t this)).
Proof.
  destruct dir; cbn; apply in_or_app; right; left; reflexivity.
Qed.

(** What a wake leaves of the threads suspended on a direction. *)
Lemma wake_suspended_on (dir : direction) (events : Z) (this : WakeHelper) :
  suspended_on dir (fst (Helper.wake events this)) =
    if to_bool (Z.land events (relevant dir)) then []
    else suspended_on dir this.
Proof.
  destruct (wake_outcome events this)
    as (_ & _ & _ & _ & _ & _ & Hrx & Htx & _).
  destruct dir; cbn; assumption.
Qed.

(** A call of [set_blocking] releases nobody. *)
Lemma set_blocking_suspended_on (dir : direction) (b : bool)
  (this : WakeHelper) :
  suspended_on dir (snd (Helper.set_blocking b this)) = suspended_on dir this.
Proof. destruct dir; reflexivity. Qed.

Lemma happen_suspended_on (dir : direction) (h : happening D)
  (d : D) (this : WakeHelper) :
  suspended_on dir (snd (happen h d this)) =
    if releases dir h then [] else suspended_on dir this.
Proof.
  destruct h as [i | b]; cbn [happen snd releases].
  - apply wake_suspended_on.
  - apply set_blocking_suspended_on.
Qed.

(** A suspended thread runs again at the first interrupt whose events
    concern its direction, and not before: what happened before it has
    been served, and what comes after it is still to come. *)
Lemma serve_until_relevant (dir : direction) (t : thread)
  (quiet : list (happening D)) (h : happening D) (later : list (happening D)) :
  forall (d : D) (this : WakeHelper),
    In t (suspended_on dir this) ->
    Forall (fun q => releases dir q = false) quiet ->
    releases dir h = true ->
    serve dir t (quiet ++ h :: later) d this =
      Some {| helper :=
                snd (fold_left (fun x q => happen q (fst x) (snd x))
                               (quiet ++ [h]) (d, this));
              device :=
                fst (fold_left (fun x q => happen q (fst x) (snd x))
                               (quiet ++ [h]) (d, this));
              pending := later |}.
Proof.
  induction quiet as [| q quiet IH]; intros d this Hin Hquiet Hrel.
  - cbn [app serve fold_left fst snd].
    pose proof (happen_suspended_on dir h d this) as Hs. rewrite Hrel in Hs.
    destruct (happen h d this) as [d1 this1]. cbn [fst snd] in *.
    rewrite Hs. reflexivity.
  - inversion Hquiet as [| ? ? Hq Hquiet']; subst.
    cbn [app serve fold_left fst snd].
    pose proof (happen_suspended_on dir q d this) as Hs. rewrite Hq in Hs.
    destruct (happen q d this) as [d1 this1]. cbn [fst snd] in *.
    rewrite Hs. apply existsb_thread in Hin. rewrite Hin.
    apply IH; [rewrite Hs; apply existsb_thread | |]; assumption.
Qed.

(** With no such interrupt it never runs again. *)
Lemma serve_never (dir : direction) (t : thread) (quiet : list (happening D)) :
  forall (d : D) (this : WakeHelper),
    In t (suspended_on dir this) ->
    Forall (fun q => releases dir q = false) quiet ->
    serve dir t quiet d this = None.
Proof.
  induction quiet as [| q quiet IH]; intros d this Hin Hquiet.
  - reflexivity.
  - inversion Hquiet as [| ? ? Hq Hquiet']; subst.
    cbn [serve].
    pose proof (happen_suspended_on dir q d this) as Hs. rewrite Hq in Hs.
    destruct (happen q d this) as [d1 this1]. cbn [fst snd] in *.
    rewrite Hs. apply existsb_thread in Hin. rewrite Hin.
    apply IH; [rewrite Hs; apply existsb_thread |]; assumption.
Qed.

End ServeFacts.

(* ===================================================================== *)
(** * Blocking mode on the scripted device                                *)
(* ===================================================================== *)

(** A blocking read by thread 1 on a device with nothing to read: a wake
    for room to transmit does not end the suspension, the wake for the
    arrival of two bytes does, and the read returns them. *)
Example blocking_read_woken_by_arrival :
  returns (system_device mbed_scripted)
    (resume_by_wake (P := mbed_platform) 1%nat)
    (Helper.read (P := mbed_platform) Helper.FileHandleDeviceWakeHelper 4)
    {| helper := Helper.FileHandleDeviceWakeHelper; device := idle_device;
       pending := [room_to_send; two_bytes_arrive; room_to_send] |}
    (2, [x00; x00])
    {| helper := Helper.FileHandleDeviceWakeHelper;
       device := {| stream_mode := true; answers := []; ready := 1 |};
       pending := [room_to_send] |}
    [CallRead 4 (-11); Suspend Rx; CallRead 4 2].
Proof.
  unfold returns, Helper.read. cbn. do 2 run_step. reflexivity.
Qed.

(** With the wake for room to transmit alone, the read stays suspended. *)
Example blocking_read_not_woken_by_room :
  blocks (system_device mbed_scripted)
    (resume_by_wake (P := mbed_platform) 1%nat)
    (Helper.read (P := mbed_platform) Helper.FileHandleDeviceWakeHelper 4)
    {| helper := Helper.FileHandleDeviceWakeHelper; device := idle_device;
       pending := [room_to_send] |}.
Proof.
  unfold blocks, Helper.read. cbn. run_step. reflexivity.
Qed.

(** A blocking read on a device that is not ready suspends; released, it
    retries and returns what the retry gives. *)
Example blocking_read_retries :
  returns mbed_scripted woken
    (Helper.read (P := mbed_platform) Helper.FileHandleDeviceWakeHelper 4)
    {| stream_mode := true; answers := [-11; 2]; ready := 0 |}
    (2, [x00; x00])
    idle_device
    [CallRead 4 (-11); Suspend Rx; CallRead 4 2].
Proof.
  unfold returns, Helper.read. cbn.
  do 2 run_step. reflexivity.
Qed.

(** With no wake, it never returns. *)
Example blocking_read_never_woken :
  blocks mbed_scripted never_woken
    (Helper.read (P := mbed_platform) Helper.FileHandleDeviceWakeHelper 4)
    idle_device.
Proof.
  unfold blocks, Helper.read. cbn.
  run_step. reflexivity.
Qed.

(** A read of no byte returns at once, whatever the device. *)
Example read_of_nothing (d : scripted) :
  returns mbed_scripted never_woken
    (Helper.read (P := mbed_platform) Helper.FileHandleDeviceWakeHelper 0)
    d (0, []) d [].
Proof.
  unfold returns, Helper.read. cbn. rewrite interp_state_ret. reflexivity.
Qed.

(** A blocking write of five bytes to a stream device that accepts three,
    is not ready, and accepts two after a wake, returns five. *)
Example blocking_stream_write_completes :
  returns mbed_scripted woken
    (Helper.write (P := mbed_platform) Helper.FileHandleDeviceWakeHelper hello)
    {| stream_mode := true; answers := [3; -11; 2]; ready := 0 |}
    5
    idle_device
    [CallWrite hello 3; CallWrite [x6c; x6f] (-11); Suspend Tx;
     CallWrite [x6c; x6f] 2].
Proof.
  unfold returns. do 5 run_step. reflexivity.
Qed.

(** A hard error of the device is the result of the write. *)
Example stream_write_hard_error :
  returns mbed_scripted woken
    (Helper.write (P := mbed_platform) Helper.FileHandleDeviceWakeHelper hello)
    {| stream_mode := true; answers := [3; -5]; ready := 0 |}
    (-5)
    idle_device
    [CallWrite hello 3; CallWrite [x6c; x6f] (-5)].
Proof.
  unfold returns. do 3 run_step. reflexivity.
Qed.

(** A blocking write to a datagram device that is never woken does not
    return. *)
Example blocking_datagram_never_woken :
  blocks mbed_scripted never_woken
    (Helper.write (P := mbed_platform) Helper.FileHandleDeviceWakeHelper hello)
    {| stream_mode := false; answers := []; ready := 0 |}.
Proof.
  unfold blocks. do 2 run_step. reflexivity.
Qed.

(* ===================================================================== *)
(** * set_blocking and the calls in progress                              *)
(* ===================================================================== *)

Lemma spin_related {E : Type -> Type} {A B : Type} (RR : A -> B -> Prop) :
  eutt RR (ITree.spin : itree E A) (ITree.spin : itree E B).
Proof.
  pcofix CIH. pstep. red. cbn. constructor. right. apply CIH.
Qed.

(** Two runs of one tree from related states stay related, when the
    events keep the relation. *)
Lemma interp_state_related {E : Type -> Type} {S R : Type}
  (h : E ~> Monads.stateT S (itree void1)) (RS : S -> S -> Prop)
  (Hh : forall T (e : E T) s1 s2,
      RS s1 s2 -> eutt (prod_rel RS eq) (h T e s1) (h T e s2)) :
  forall (t : itree E R) (s1 s2 : S),
    RS s1 s2 ->
    eutt (prod_rel RS eq) (interp_state h t s1) (interp_state h t s2).
Proof.
  einit. ecofix CIH. intros t s1 s2 HRS.
  rewrite !unfold_interp_state.
  destruct (observe t) as [r | t' | T e k]; cbn.
  - eret.
  - etau.
  - ebind. econstructor; [apply Hh; exact HRS |].
    intros [x1 a1] [x2 a2] [Hx Ha]. cbn in Hx, Ha. subst a2. cbn.
    etau.
Qed.

Section ModeFacts.
Context {P : Platform} {D : Type}.
Variable dev : Device D.

Lemma same_but_mode_refl (h : WakeHelper) : same_but_mode h h.
Proof. repeat split. Qed.

Lemma same_but_mode_sym (h1 h2 : WakeHelper) :
  same_but_mode h1 h2 -> same_but_mode h2 h1.
Proof. intros (? & ? & ? & ?). repeat split; auto. Qed.

Lemma same_but_mode_trans (h1 h2 h3 : WakeHelper) :
  same_but_mode h1 h2 -> same_but_mode h2 h3 -> same_but_mode h1 h3.
Proof.
  intros (? & ? & ? & ?) (? & ? & ? & ?). repeat split; congruence.
Qed.

Lemma same_outcome_sym (o1 o2 : option (system D)) :
  same_outcome o1 o2 -> same_outcome o2 o1.
Proof.
  destruct o1 as [s1 |], o2 as [s2 |]; cbn; try tauto.
  intros (Hd & Hh & Hp).
  split; [symmetry; assumption |].
  split; [apply same_but_mode_sym; assumption | symmetry; assumption].
Qed.

Lemma same_outcome_trans (o1 o2 o3 : option (system D)) :
  same_outcome o1 o2 -> same_outcome o2 o3 -> same_outcome o1 o3.
Proof.
  destruct o1 as [s1 |], o2 as [s2 |], o3 as [s3 |]; cbn; try tauto.
  intros (Hd & Hh & Hp) (Hd' & Hh' & Hp').
  split; [congruence |].
  split; [eapply same_but_mode_trans; eassumption | congruence].
Qed.

Lemma same_but_mode_suspended_on (dir : direction) (h1 h2 : WakeHelper) :
  same_but_mode h1 h2 -> suspended_on dir h1 = suspended_on dir h2.
Proof. intros (_ & Hrx & Htx & _). destruct dir; cbn; congruence. Qed.

Lemma interrupts_of_interrupts (hs : list (happening D)) :
  interrupts_of (List.map Interrupt (interrupts_of hs)) = interrupts_of hs.
Proof.
  induction hs as [| [i | b] hs IH]; cbn; [reflexivity | | assumption].
  f_equal. exact IH.
Qed.

(** To a suspended thread, what is to happen comes to its interrupts: the
    calls of [set_blocking] among it release nobody and change nothing
    that a wake looks at. *)
Lemma serve_interrupts_only (dir : direction) (t : thread)
  (hs : list (happening D)) :
  forall (d : D) (h1 h2 : WakeHelper),
    same_but_mode h1 h2 ->
    In t (suspended_on dir h1) ->
    same_outcome (serve dir t hs d h1)
                 (serve dir t (List.map Interrupt (interrupts_of hs)) d h2).
Proof.
  induction hs as [| [i | b] hs IH]; intros d h1 h2 Hsame Hin.
  - exact I.
  - cbn [interrupts_of flat_map app List.map serve happen].
    pose proof (wake_same_but_mode (reports i) h1 h2 Hsame) as Hsame1.
    rewrite <- (same_but_mode_suspended_on dir _ _ Hsame1).
    destruct (existsb (Nat.eqb t)
                (suspended_on dir (fst (Helper.wake (reports i) h1)))) eqn:E.
    + apply (IH _ _ _ Hsame1). apply existsb_thread. exact E.
    + split; [reflexivity |]. split; [exact Hsame1 |].
      cbn [pending]. symmetry. apply interrupts_of_interrupts.
  - cbn [interrupts_of flat_map app serve happen].
    rewrite set_blocking_suspended_on.
    pose proof Hin as Hin'. apply existsb_thread in Hin'. rewrite Hin'.
    apply IH; [exact Hsame | rewrite set_blocking_suspended_on; exact Hin].
Qed.

(** So two suspensions of a thread in two systems that differ in blocking
    modes and calls of [set_blocking] only end alike. *)
Lemma resume_same_but_modes (t : thread) (dir : direction)
  (s1 s2 : system D) :
  same_but_modes s1 s2 ->
  same_outcome (resume_by_wake t dir s1) (resume_by_wake t dir s2).
Proof.
  intros (Hd & Hh & Hp). unfold resume_by_wake.
  assert (Hs : same_but_mode (suspend dir t (helper s1))
                             (suspend dir t (helper s2))).
  { destruct Hh as (He & Hrx & Htx & Hcb).
    destruct dir; unfold same_but_mode; cbn; rewrite ?Hrx, ?Htx;
      repeat split; assumption. }
  apply same_outcome_trans
    with (serve dir t (List.map Interrupt (interrupts_of (pending s1)))
                (device s1) (suspend dir t (helper s1))).
  - apply serve_interrupts_only;
      [apply same_but_mode_refl | apply suspend_suspends].
  - apply same_outcome_sym. rewrite Hd, Hp.
    apply serve_interrupts_only;
      [apply same_but_mode_sym; exact Hs | apply suspend_suspends].
Qed.

(** Each event of a call keeps two such systems alike. *)
Lemma run_event_same_but_modes (t : thread) (T : Type) (e : helperE T)
  (w1 w2 : system D * list call) :
  same_run w1 w2 ->
  eutt (prod_rel same_run eq)
       (run_event (system_device dev) (resume_by_wake t) T e w1)
       (run_event (system_device dev) (resume_by_wake t) T e w2).
Proof.
  destruct w1 as [s1 log1], w2 as [s2 log2].
  intros [Hs Hlog]. cbn in Hs, Hlog. subst log2.
  pose proof Hs as (Hd & Hh & Hp).
  destruct e as [| size | data | dir]; cbn.
  - rewrite Hd. apply eqit_Ret.
    constructor; cbn; [split; [exact Hs | reflexivity] | reflexivity].
  - rewrite Hd.
    destruct (read_nonblocking dev size (device s2)) as [[r buf] d'].
    apply eqit_Ret. constructor; cbn; [| reflexivity].
    split; [| reflexivity].
    split; [reflexivity |]. split; [exact Hh | exact Hp].
  - rewrite Hd.
    destruct (write_nonblocking dev data (device s2)) as [n d'].
    apply eqit_Ret. constructor; cbn; [| reflexivity].
    split; [| reflexivity].
    split; [reflexivity |]. split; [exact Hh | exact Hp].
  - pose proof (resume_same_but_modes t dir s1 s2 Hs) as Hr.
    destruct (resume_by_wake t dir s1) as [s1' |],
             (resume_by_wake t dir s2) as [s2' |]; cbn in Hr;
      try contradiction.
    + apply eqit_Ret.
      constructor; cbn; [split; [exact Hr | reflexivity] | reflexivity].
    + apply spin_related.
Qed.

(** A call that runs while other threads call [set_blocking] makes the
    calls and suspensions, and returns the result, that it makes and
    returns without them. *)
Lemma run_same_but_modes {R : Type} (c : itree helperE R) (t : thread)
  (s1 s2 : system D) :
  same_but_modes s1 s2 ->
  eutt (prod_rel same_run eq)
       (interp_state (run_event (system_device dev) (resume_by_wake t))
                     c (s1, []))
       (interp_state (run_event (system_device dev) (resume_by_wake t))
                     c (s2, [])).
Proof.
  intros Hs. apply interp_state_related.
  - intros T e w1 w2. apply run_event_same_but_modes.
  - split; [exact Hs | reflexivity].
Qed.

End ModeFacts.

(** A blocking read by thread 1 is suspended; another thread sets the
    handle non-blocking; a wake for an error finds nothing to read: the
    read is suspended again, as it is a blocking one, and returns the two
    bytes that arrive later. *)
Example suspended_read_keeps_its_mode :
  returns (system_device mbed_scripted)
    (resume_by_wake (P := mbed_platform) 1%nat)
    (Helper.read (P := mbed_platform) Helper.FileHandleDeviceWakeHelper 4)
    {| helper := Helper.FileHandleDeviceWakeHelper; device := idle_device;
       pending := [SetsBlocking false;
                   Interrupt {| occurs := fun s => s; reports := 0x1000 |};
                   two_bytes_arrive] |}
    (2, [x00; x00])
    {| helper := nonblocking_helper;
       device := {| stream_mode := true; answers := []; ready := 1 |};
       pending := [] |}
    [CallRead 4 (-11); Suspend Rx; CallRead 4 (-11); Suspend Rx;
     CallRead 4 2].
Proof.
  unfold returns, Helper.read. cbn. do 3 run_step. reflexivity.
Qed.

(** A wake for a hangup alone does not end the suspension of a reader. *)
Example blocking_read_not_woken_by_hangup :
  blocks (system_device mbed_scripted)
    (resume_by_wake (P := mbed_platform) 1%nat)
    (Helper.read (P := mbed_platform) Helper.FileHandleDeviceWakeHelper 4)
    {| helper := Helper.FileHandleDeviceWakeHelper; device := idle_device;
       pending := [hangup] |}.
Proof.
  unfold blocks, Helper.read. cbn. run_step. reflexivity.
Qed.

(** C6. For every argument [b], [set_blocking(b)] of the helper returns 0
    and stores [b]: [is_blocking()] is [b] afterwards, no other member of
    the helper changes and no suspended thread is released.  Calls made
    afterwards observe [b]: on a device that is not ready, and with no
    wake to come, a [read] and a [write] called afterwards never return if
    [b] is true, and return the not-ready sentinel after one call of the
    device if [b] is false.  Calls in progress do not: a [read] or [write],
    started on the helper in whatever state, makes the same calls and
    suspensions and returns the same result whether or not other threads
    call [set_blocking] while it runs.  The default [set_blocking] of
    FileHandle returns a negative code for every argument and leaves the
    handle as it is. *)
Theorem set_blocking_helper_and_default {P : Platform} {St D : Type}
  (b : bool) (this : WakeHelper) (s : St)
  (dev : Device D) (resume : direction -> D -> option D)
  (size : N) (data : list byte) (d dr dw : D) (buf : list byte)
  (Hsize : size <> 0%N) (Hdata : data <> [])
  (Hread : read_nonblocking dev size d = (- EAGAIN, buf, dr))
  (Hwrite : write_nonblocking dev data d = (- EAGAIN, dw))
  (Hrx : resume Rx dr = None) (Htx : resume Tx dw = None) :
  let this' := snd (Helper.set_blocking b this) in
  fst (Helper.set_blocking b this) = 0 /\
  Helper.is_blocking this' = b /\
  _poll_wake_events this' = _poll_wake_events this /\
  _cv_rx this' = _cv_rx this /\
  _cv_tx this' = _cv_tx this /\
  _sigio_cb this' = _sigio_cb this /\
  (forall dir, suspended_on dir this' = suspended_on dir this) /\
  (if b then blocks dev resume (Helper.read this' size) d
   else returns dev resume (Helper.read this' size) d (- EAGAIN, buf) dr
          [CallRead size (- EAGAIN)]) /\
  (if b then blocks dev resume (Helper.write this' data) d
   else returns dev resume (Helper.write this' data) d (- EAGAIN) dw
          [CallWrite data (- EAGAIN)]) /\
  (forall (started : WakeHelper) (t : thread) (s1 s2 : system D),
     same_but_modes s1 s2 ->
     eutt (prod_rel same_run eq)
       (interp_state (run_event (system_device dev) (resume_by_wake t))
                     (Helper.read started size) (s1, []))
       (interp_state (run_event (system_device dev) (resume_by_wake t))
                     (Helper.read started size) (s2, [])) /\
     eutt (prod_rel same_run eq)
       (interp_state (run_event (system_device dev) (resume_by_wake t))
                     (Helper.write started data) (s1, []))
       (interp_state (run_event (system_device dev) (resume_by_wake t))
                     (Helper.write started data) (s2, []))) /\
  fst (Base.set_blocking b s) < 0 /\
  snd (Base.set_blocking b s) = s.
Proof.
  cbv zeta.
  do 6 (split; [reflexivity |]).
  split; [intros dir; apply set_blocking_suspended_on |].
  split; [| split; [| split; [| split; [cbn; lia | reflexivity]]]].
  - unfold blocks, returns, Helper.read.
    destruct (N.eqb_spec size 0) as [E | _]; [contradiction |].
    cbn [Helper.set_blocking snd Helper.is_blocking _blocking].
    destruct b; rewrite run_read_loop, Hread, Z.eqb_refl; cbn [andb].
    + rewrite Hrx. reflexivity.
    + reflexivity.
  - unfold blocks, returns.
    cbn [Helper.set_blocking snd].
    destruct data as [| c data]; [contradiction |].
    destruct b; rewrite run_write; cbn [Helper.is_blocking _blocking];
      destruct (is_stream dev d);
      rewrite ?run_write_stream, ?run_write_datagram, Hwrite, Z.eqb_refl;
      cbn [andb]; rewrite ?Htx; reflexivity.
  - intros started t s1 s2 Hs.
    split; apply run_same_but_modes; exact Hs.
Qed.

Lemma set_blocking_helper_and_default_witness :
  blocks mbed_scripted never_woken
    (Helper.read (P := mbed_platform)
       (snd (Helper.set_blocking true nonblocking_helper)) 4)
    idle_device /\
  returns mbed_scripted never_woken
    (Helper.write (P := mbed_platform)
       (snd (Helper.set_blocking false Helper.FileHandleDeviceWakeHelper))
       hello)
    idle_device (-11) idle_device [CallWrite hello (-11)] /\
  eutt (prod_rel same_run eq)
    (interp_state
       (run_event (system_device mbed_scripted)
                  (resume_by_wake (P := mbed_platform) 1%nat))
       (Helper.read (P := mbed_platform) Helper.FileHandleDeviceWakeHelper 4)
       ({| helper := Helper.FileHandleDeviceWakeHelper;
           device := idle_device;
           pending := [SetsBlocking false; two_bytes_arrive] |}, []))
    (interp_state
       (run_event (system_device mbed_scripted)
                  (resume_by_wake (P := mbed_platform) 1%nat))
       (Helper.read (P := mbed_platform) Helper.FileHandleDeviceWakeHelper 4)
       ({| helper := Helper.FileHandleDeviceWakeHelper;
           device := idle_device;
           pending := [two_bytes_arrive] |}, [])).
Proof.
  pose proof (set_blocking_helper_and_default (P := mbed_platform)
                true nonblocking_helper 0 mbed_scripted never_woken
                4 hello idle_device idle_device idle_device []
                ltac:(discriminate) ltac:(discriminate)
                eq_refl eq_refl eq_refl eq_refl)
    as (_ & _ & _ & _ & _ & _ & _ & Hblocks & _ & Hrun & _).
  pose proof (set_blocking_helper_and_default (P := mbed_platform)
                false Helper.FileHandleDeviceWakeHelper 0 mbed_scripted
                never_woken 4 hello idle_device idle_device idle_device []
                ltac:(discriminate) ltac:(discriminate)
                eq_refl eq_refl eq_refl eq_refl)
    as (_ & _ & _ & _ & _ & _ & _ & _ & Hreturns & _).
  split; [exact Hblocks |]. split; [exact Hreturns |].
  apply (Hrun Helper.FileHandleDeviceWakeHelper 1%nat).
  repeat split.
Defined.

(* ===================================================================== *)
(** * Writes to a datagram device                                         *)
(* ===================================================================== *)





(* ===================================================================== *)
(** * Non-blocking mode                                                   *)
(* ===================================================================== *)

(** A stream device that accepts three of five bytes and is not ready
    then, behind a helper in non-blocking mode. *)
Lemma stream_partial_run :
  returns mbed_scripted woken
    (Helper.write (P := mbed_platform) nonblocking_helper hello)
    {| stream_mode := true; answers := [3]; ready := 0 |}
    3
    {| stream_mode := true; answers := []; ready := 0 |}
    [CallWrite hello 3; CallWrite [x6c; x6f] (-11)].
Proof.
  unfold returns. do 3 run_step. reflexivity.
Qed.

(** C5, as it is stated, fails: in non-blocking mode a stream write that
    has written bytes when write_nonblocking reports the sentinel returns
    their count, not the sentinel. *)
Lemma partial_write_returns_count :
  ~ not_ready_gives_sentinel (P := mbed_platform) mbed_scripted woken
      nonblocking_helper hello
      {| stream_mode := true; answers := [3]; ready := 0 |}.
Proof.
  intros H. specialize (H eq_refl _ _ _ stream_partial_run).
  assert (Hin : exists asked,
             In (CallWrite asked (- EAGAIN (Platform := mbed_platform)))
                [CallWrite hello 3; CallWrite [x6c; x6f] (-11)]).
  { exists [x6c; x6f]. right. left. reflexivity. }
  specialize (H Hin). discriminate H.
Qed.

(** C5, amended.  In non-blocking mode, for every device: a read whose
    read_nonblocking reports the not-ready sentinel returns the sentinel,
    after this one call and without a suspension; so does a write to a
    datagram device; and a write to a stream device returns, as soon as
    write_nonblocking reports the sentinel, without a suspension and
    without a further call, the sentinel if no byte has been written and
    the count of the bytes written otherwise. *)
Theorem nonblocking_not_ready {P : Platform} {D : Type} (dev : Device D)
  (resume : direction -> D -> option D) (this : WakeHelper)
  (Hmode : Helper.is_blocking this = false) :
  (forall size d buf d',
     size <> 0%N ->
     read_nonblocking dev size d = (- EAGAIN, buf, d') ->
     returns dev resume (Helper.read this size) d (- EAGAIN, buf) d'
       [CallRead size (- EAGAIN)]) /\
  (forall data d d',
     data <> [] ->
     is_stream dev d = false ->
     write_nonblocking dev data d = (- EAGAIN, d') ->
     returns dev resume (Helper.write this data) d (- EAGAIN) d'
       [CallWrite data (- EAGAIN)]) /\
  (forall data d k written rest d1 log d',
     is_stream dev d = true ->
     accepted dev k 0 data d [] = Some (written, rest, d1, log) ->
     rest <> [] ->
     write_nonblocking dev rest d1 = (- EAGAIN, d') ->
     returns dev resume (Helper.write this data) d
       (if 0 <? written then written else - EAGAIN) d'
       (log ++ [CallWrite rest (- EAGAIN)]) /\
     writes_in log = k /\
     suspensions_in (log ++ [CallWrite rest (- EAGAIN)]) = 0%nat).
Proof.
  split; [| split].
  - intros size d buf d' Hsize Hcall. unfold returns, Helper.read.
    destruct (N.eqb_spec size 0) as [E | _]; [contradiction |].
    rewrite run_read_loop, Hcall, Hmode, andb_false_r. reflexivity.
  - intros data d d' Hdata Hdatagram Hcall. unfold returns.
    rewrite run_write. destruct data as [| b data]; [contradiction |].
    rewrite Hdatagram, run_write_datagram, Hcall, Hmode, andb_false_r.
    reflexivity.
  - intros data d k written rest d1 log d' Hstream Hacc Hrest Hcall.
    assert (Hdata : data <> []).
    { intros ->. destruct k; cbn in Hacc; [| discriminate].
      injection Hacc as _ <- _ _. contradiction. }
    destruct (accepted_log dev k _ _ _ _ _ _ _ _ Hacc)
      as (added & Hlog & Hwrites & Hsusp & _).
    cbn in Hlog. subst log.
    split; [| split].
    + unfold returns. rewrite run_write.
      destruct data as [| b data]; [contradiction |].
      rewrite Hstream, Hmode.
      rewrite (run_write_stream_accepted dev resume false k
                 _ _ _ _ _ _ _ _ Hacc).
      rewrite run_write_stream.
      destruct rest as [| c rest]; [contradiction |].
      rewrite Hcall, Z.eqb_refl. reflexivity.
    + exact Hwrites.
    + unfold suspensions_in in *. rewrite filter_app, length_app, Hsusp.
      reflexivity.
Qed.

Lemma nonblocking_not_ready_witness :
  returns mbed_scripted woken
    (Helper.read (P := mbed_platform) nonblocking_helper 4)
    {| stream_mode := true; answers := []; ready := 0 |}
    (-11, []) {| stream_mode := true; answers := []; ready := 0 |}
    [CallRead 4 (-11)] /\
  returns mbed_scripted woken
    (Helper.write (P := mbed_platform) nonblocking_helper hello)
    {| stream_mode := false; answers := []; ready := 0 |}
    (-11) {| stream_mode := false; answers := []; ready := 0 |}
    [CallWrite hello (-11)] /\
  returns mbed_scripted woken
    (Helper.write (P := mbed_platform) nonblocking_helper hello)
    {| stream_mode := true; answers := [3]; ready := 0 |}
    3 {| stream_mode := true; answers := []; ready := 0 |}
    [CallWrite hello 3; CallWrite [x6c; x6f] (-11)].
Proof.
  destruct (nonblocking_not_ready (P := mbed_platform) mbed_scripted woken
              nonblocking_helper eq_refl) as (Hread & Hdatagram & Hstream).
  split; [| split].
  - apply (Hread 4%N); [discriminate | reflexivity].
  - apply Hdatagram; [discriminate | reflexivity | reflexivity].
  - apply (Hstream hello _ 1%nat 3 [x6c; x6f]
             {| stream_mode := true; answers := []; ready := 0 |}
             [CallWrite hello 3]);
      [reflexivity | reflexivity | discriminate | reflexivity].
Defined.








(* ===================================================================== *)
(** * More on the bodies of the header                                    *)
(* ===================================================================== *)

Lemma default_poll_value {P : Platform} {St : Type} (Hok : flags_ok P)
  (events : Z) (s : St) :
  Base.poll events s = Z.lor POLLIN POLLOUT.
Proof.
  unfold Base.poll. apply to_short_id.
  pose proof (in_range P Hok). pose proof (out_range P Hok).
  assert (is_short POLLIN) by (unfold is_short; lia).
  assert (is_short POLLOUT) by (unfold is_short; lia).
  auto with short.
Qed.

Lemma default_poll_with_wake_value {P : Platform} {St : Type}
  (Hok : flags_ok P) (events : Z) (wake : bool) (s : St) :
  Base.poll_with_wake events wake s = (POLLNVAL, s).
Proof.
  unfold Base.poll_with_wake. rewrite to_short_id; [reflexivity |].
  pose proof (nval_range P Hok). unfold is_short. lia.
Qed.

(** X1. With poll flags that are distinct non-empty masks of a
    non-negative [short], the default [poll_with_wake] of FileHandle
    returns POLLNVAL whatever the events and the wake flag, and leaves the
    handle as it is; its result has neither POLLIN nor POLLOUT, and it
    shares no bit with what the default [poll] returns, which has both: on
    a handle that keeps both defaults [poll] reports readiness and
    [poll_with_wake] reports none. *)
Theorem default_poll_with_wake_invalid {P : Platform} {St : Type}
  (Hok : flags_ok P) (events events' : Z) (wake : bool) (s : St) :
  fst (Base.poll_with_wake events wake s) = POLLNVAL /\
  snd (Base.poll_with_wake events wake s) = s /\
  Z.land (fst (Base.poll_with_wake events wake s)) POLLIN = 0 /\
  Z.land (fst (Base.poll_with_wake events wake s)) POLLOUT = 0 /\
  Z.land (fst (Base.poll_with_wake events wake s)) (Base.poll events' s) = 0 /\
  fst (Base.poll_with_wake events wake s) <> Base.poll events' s.
Proof.
  rewrite default_poll_with_wake_value, default_poll_value by assumption.
  cbn [fst snd].
  assert (Hi : Z.land POLLNVAL POLLIN = 0)
    by (rewrite Z.land_comm; apply (in_nval P Hok)).
  assert (Ho : Z.land POLLNVAL POLLOUT = 0)
    by (rewrite Z.land_comm; apply (out_nval P Hok)).
  assert (Hio : Z.land POLLNVAL (Z.lor POLLIN POLLOUT) = 0)
    by (rewrite Z.land_lor_distr_r, Hi, Ho; reflexivity).
  repeat split; try assumption.
  intros Heq. rewrite <- Heq, Z.land_diag in Hio.
  pose proof (nval_range P Hok). lia.
Qed.

Lemma default_poll_with_wake_invalid_witness :
  fst (Base.poll_with_wake (P := mbed_platform) 1 true 7) = 0x4000 /\
  snd (Base.poll_with_wake (P := mbed_platform) 1 true 7) = 7 /\
  Z.land (fst (Base.poll_with_wake (P := mbed_platform) 1 true 7))
         (Base.poll (P := mbed_platform) 1 7) = 0.
Proof.
  pose proof (default_poll_with_wake_invalid (P := mbed_platform)
                mbed_flags_ok 1 1 true 7) as (Hv & Hs & _ & _ & Hd & _).
  split; [exact Hv |]. split; [exact Hs | exact Hd].
Defined.

(** The last element of a list that has one does not depend on the
    default. *)
Lemma last_cons {A : Type} (l : list A) :
  forall x d : A, last (x :: l) d = last l x.
Proof.
  induction l as [| y l IH]; intros x d; [reflexivity |].
  change (last (x :: y :: l) d) with (last (y :: l) d).
  rewrite !IH. reflexivity.
Qed.

(** X2. After any sequence of calls of [set_blocking] on the helper, every
    call has returned 0, [is_blocking()] is the argument of the last call
    (and what it was before if there was no call: [true] on a helper just
    constructed), and the registration, the wait primitives and the
    callback are what they were.  A call with the current mode leaves the
    whole helper as it is. *)
Theorem set_blocking_calls_last (modes : list bool) (this : WakeHelper) :
  let after := snd (set_blocking_calls modes this) in
  fst (set_blocking_calls modes this) = repeat 0 (length modes) /\
  Helper.is_blocking after = last modes (Helper.is_blocking this) /\
  _poll_wake_events after = _poll_wake_events this /\
  _cv_rx after = _cv_rx this /\
  _cv_tx after = _cv_tx this /\
  _sigio_cb after = _sigio_cb this /\
  Helper.is_blocking
    (snd (set_blocking_calls [] Helper.FileHandleDeviceWakeHelper)) = true /\
  snd (Helper.set_blocking (Helper.is_blocking this) this) = this.
Proof.
  cbv zeta.
  assert (Hrun : forall ms h,
    fst (set_blocking_calls ms h) = repeat 0 (length ms) /\
    Helper.is_blocking (snd (set_blocking_calls ms h))
      = last ms (Helper.is_blocking h) /\
    _poll_wake_events (snd (set_blocking_calls ms h)) = _poll_wake_events h /\
    _cv_rx (snd (set_blocking_calls ms h)) = _cv_rx h /\
    _cv_tx (snd (set_blocking_calls ms h)) = _cv_tx h /\
    _sigio_cb (snd (set_blocking_calls ms h)) = _sigio_cb h).
  { induction ms as [| b ms IH]; intros h.
    - cbn. repeat split.
    - cbn [set_blocking_calls Helper.set_blocking].
      specialize (IH {| _blocking := b;
                        _poll_wake_events := _poll_wake_events h;
                        _cv_rx := _cv_rx h; _cv_tx := _cv_tx h;
                        _sigio_cb := _sigio_cb h |}).
      destruct (set_blocking_calls ms _) as [rs h2]. cbn [fst snd] in *.
      destruct IH as (Hrs & Hmode & Hreg & Hrx & Htx & Hcb).
      cbn in Hmode, Hreg, Hrx, Htx, Hcb.
      repeat split; try assumption.
      + cbn. rewrite Hrs. reflexivity.
      + rewrite Hmode. symmetry. apply last_cons. }
  destruct (Hrun modes this) as (H1 & H2 & H3 & H4 & H5 & H6).
  repeat split; try assumption.
  destruct this. reflexivity.
Qed.

(** X3. On a handle of a class that overrides none of [sync], [isatty],
    [fsync], [set_blocking], [poll_with_wake] and [sigio], with poll flags
    as above, no sequence of calls of these members changes the handle;
    each [sync], [isatty] and [fsync] returns 0, each [set_blocking]
    returns -1 and each [poll_with_wake] returns POLLNVAL; so [readable()]
    and [writable()] answer after the calls as before. *)
Theorem plain_defaults_keep_handle {P : Platform} {St : Type}
  (Hok : flags_ok P) (this : FileHandle St)
  (Hkeeps : keeps_plain_defaults this) (cs : list plain_call) (s : St) :
  snd (plain_calls_run this cs s) = s /\
  fst (plain_calls_run this cs s) = List.map plain_default_result cs /\
  Base.readable this (snd (plain_calls_run this cs s)) = Base.readable this s /\
  Base.writable this (snd (plain_calls_run this cs s)) = Base.writable this s.
Proof.
  assert (Hone : forall c x,
            plain_call_run this c x = (plain_default_result c, x)).
  { destruct Hkeeps as [Hsync Htty Hfsync Hsb Hpw Hsig].
    intros [| | | b | e w | f] x; unfold plain_call_run.
    - rewrite Hsync. reflexivity.
    - rewrite Htty. reflexivity.
    - rewrite Hfsync. unfold Base.fsync. rewrite Hsync. reflexivity.
    - rewrite Hsb. reflexivity.
    - rewrite Hpw, default_poll_with_wake_value by assumption. reflexivity.
    - rewrite Hsig. reflexivity. }
  assert (Hall : plain_calls_run this cs s
                 = (List.map plain_default_result cs, s)).
  { induction cs as [| c cs IH]; [reflexivity |].
    cbn [plain_calls_run List.map]. rewrite Hone, IH. reflexivity. }
  rewrite Hall. cbn [fst snd]. auto.
Qed.

Lemma mbed_file_keeps_defaults :
  keeps_plain_defaults (P := mbed_platform) mbed_file.
Proof. constructor; reflexivity. Qed.

Lemma plain_defaults_keep_handle_witness :
  plain_calls_run mbed_file
    [CallSetBlocking false; CallFsync; CallPollWithWake 1 true;
     CallSigio (Some 3%nat); CallSync; CallIsatty] 5
  = ([Some (-1); Some 0; Some 0x4000; None; Some 0; Some 0], 5).
Proof.
  pose proof (plain_defaults_keep_handle (P := mbed_platform) mbed_flags_ok
                mbed_file mbed_file_keeps_defaults
                [CallSetBlocking false; CallFsync; CallPollWithWake 1 true;
                 CallSigio (Some 3%nat); CallSync; CallIsatty] 5)
    as (Hs & Hr & _).
  rewrite (surjective_pairing (plain_calls_run mbed_file _ 5)), Hs, Hr.
  reflexivity.
Defined.
